(** * ml-pipeline: a shallow embedding of the validation, preprocessing,
      training, evaluation and serving code, and the properties the
      specification states about them.

    Layout.  Part I embeds the Python sources, one [Module] per source
    file, in an exception-and-state monad over an explicit object store.
    Part II states and proves the properties.

    Conventions of the embedding.
    - A pandas [DataFrame] is a mutable object: variables hold references
      ([ref]) into a store ([heap]); [data.copy()] allocates, an item
      assignment [data[cols] = ...] updates the object in place.
    - [self] is the receiver object of the method being modelled.
    - Floating-point numbers are modelled by exact rationals ([Qc]), with
      the IEEE specials written out where the code can produce them.
    - scikit-learn, numpy's random shuffling, float formatting and the
      clock are external: what they compute is taken as an interface
      ([PreprocOps], [EstimatorOps], [MetricOps]); the order and the
      arguments of the calls are the program's and are modelled as
      written.  [Sample] instantiates the interfaces so that the
      embedding can be run. *)

From Stdlib Require Import String Ascii ZArith QArith Qcanon Qround List Bool Lia.
From stdpp Require Import base option numbers list sorting strings pretty gmap fin_maps.

Open Scope string_scope.
Open Scope nat_scope.

(* ===================================================================== *)
(** * Part I.  The embedding                                               *)
(* ===================================================================== *)

(** ** Python exceptions and the state-and-exception monad *)

(** The subclasses of [Exception] the modelled code can see.  Every one of
    them is caught by [except Exception] and by a bare [except]. *)
Inductive exn : Type :=
| ValueError (msg : string)
| KeyError (key : string)
| TypeError (msg : string)
| IndexError (msg : string)
| AttributeError (msg : string)
| NameError (name : string)
| NotFittedError (msg : string)
| ValidationError (msg : string)
| FileNotFoundError (path : string)
| IsADirectoryError (path : string)
| NotADirectoryError (path : string)
| HTTPException (status_code : Z) (detail : string).

(** [str(e)] *)
Definition exn_str (e : exn) : string :=
  match e with
  | ValueError m | TypeError m | IndexError m | AttributeError m
  | NotFittedError m | ValidationError m => m
  | KeyError k => "'" +:+ k +:+ "'"
  | FileNotFoundError p => "[Errno 2] No such file or directory: '" +:+ p +:+ "'"
  | IsADirectoryError p => "[Errno 21] Is a directory: '" +:+ p +:+ "'"
  | NotADirectoryError p => "[Errno 20] Not a directory: '" +:+ p +:+ "'"
  | NameError n => "name '" +:+ n +:+ "' is not defined"
  | HTTPException _ d => d
  end.

Inductive outcome (A : Type) : Type :=
| Ret (a : A)
| Raise (e : exn).
Arguments Ret {A} a.
Arguments Raise {A} e.

(** A computation over a state [S]: the state reached is returned also
    when an exception is raised (mutations made before it persist). *)
Definition M (S A : Type) : Type := S → outcome A * S.

Definition ret {S A} (a : A) : M S A := λ s, (Ret a, s).
Definition raise {S A} (e : exn) : M S A := λ s, (Raise e, s).
Definition bind {S A B} (c : M S A) (k : A → M S B) : M S B :=
  λ s, match c s with
       | (Ret a, s') => k a s'
       | (Raise e, s') => (Raise e, s')
       end.
Definition get {S} : M S S := λ s, (Ret s, s).
Definition modify {S} (f : S → S) : M S unit := λ s, (Ret tt, f s).
Definition lift {S A} (o : outcome A) : M S A := λ s, (o, s).

(** [try: c  except Exception as e: h e] *)
Definition try_except {S A} (c : M S A) (h : exn → M S A) : M S A :=
  λ s, match c s with
       | (Ret a, s') => (Ret a, s')
       | (Raise e, s') => h e s'
       end.

Notation "'let*' x ':=' c 'in' k" := (bind c (λ x, k))
  (at level 10, x pattern, c at level 100, k at level 200, only parsing).

(** [c] run in [s] returns [a]. *)
Definition returns {S A} (c : M S A) (s : S) (a : A) : Prop := fst (c s) = Ret a.

Definition obind {A B} (o : outcome A) (k : A → outcome B) : outcome B :=
  match o with Ret a => k a | Raise e => Raise e end.

Fixpoint mapM {A B} (f : A → outcome B) (l : list A) : outcome (list B) :=
  match l with
  | [] => Ret []
  | x :: l' => obind (f x) (λ y, obind (mapM f l') (λ ys, Ret (y :: ys)))
  end.

(** ** Strings *)

(** Python's [needle in haystack] on [str]. *)
Fixpoint str_in (needle hay : string) : bool :=
  String.prefix needle hay
  || match hay with
     | EmptyString => false
     | String _ hay' => str_in needle hay'
     end.

(** [repr] of a [str] without quotes or escapes in it, and of a list of
    such strings: ['a', 'b']. *)
Definition repr_str (s : string) : string := "'" +:+ s +:+ "'".

Fixpoint join_comma (l : list string) : string :=
  match l with
  | [] => ""
  | [x] => x
  | x :: l' => x +:+ ", " +:+ join_comma l'
  end.

Definition repr_str_list (l : list string) : string :=
  "[" +:+ join_comma (map repr_str l) +:+ "]".

(** [os.path.join(a, b)] on POSIX. *)
Definition ends_with_slash (a : string) : bool :=
  match String.get (String.length a - 1) a with
  | Some c => Ascii.eqb c "/"
  | None => false
  end.

Definition path_join (a b : string) : string :=
  if String.prefix "/" b then b
  else if (String.eqb a "" || ends_with_slash a)%bool then a +:+ b
  else a +:+ "/" +:+ b.

(** [p[:p.rfind('/') + 1]]: [p] up to its last slash, the slash included. *)
Fixpoint up_to_last_slash (p : string) : string :=
  match p with
  | EmptyString => ""
  | String c p' =>
      if str_in "/" p' then String c (up_to_last_slash p')
      else if Ascii.eqb c "/" then "/" else ""
  end.

(** [p.rstrip('/')] *)
Fixpoint rstrip_slash (p : string) : string :=
  match p with
  | EmptyString => ""
  | String c p' =>
      match rstrip_slash p' with
      | EmptyString => if Ascii.eqb c "/" then "" else String c ""
      | rest => String c rest
      end
  end.

(** [os.path.dirname(p)] on POSIX: the part before the last slash,
    without its trailing slashes unless it consists of slashes. *)
Definition dirname (p : string) : string :=
  let head := up_to_last_slash p in
  if String.eqb (rstrip_slash head) "" then head else rstrip_slash head.

(** ** Floats *)

(** A float64 as far as the code distinguishes: a rational, an infinity
    or NaN. *)
Inductive pyfloat : Type :=
| FNum (q : Qc)
| FInf
| FNegInf
| FNaN.

(** [a > b] on floats: every comparison with NaN is false. *)
Definition float_gt (a b : pyfloat) : bool :=
  match a, b with
  | FNaN, _ | _, FNaN => false
  | FNegInf, _ => false
  | _, FInf => false
  | FInf, _ => true
  | FNum _, FNegInf => true
  | FNum x, FNum y => bool_decide (y < x)%Qc
  end.

(** [count / n] as pandas divides a Series of integer counts by the
    integer [n]: division by zero gives [inf], or [NaN] for 0/0, without
    raising. *)
Definition count_div (k n : nat) : pyfloat :=
  match n with
  | O => match k with O => FNaN | S _ => FInf end
  | S _ => FNum (Qc_of_Z (Z.of_nat k) / Qc_of_Z (Z.of_nat n))%Qc
  end.

(** ** The data model *)

(** *** Tables *)

(** A cell of an [object]-dtype column: a string, [None] or [NaN]. *)
Inductive ocell : Type :=
| OStr (s : string)
| ONone
| ONaN.

(** A column with its dtype: [int64] (no missing value), [float64]
    (a missing value is NaN, here [None]) or [object]. *)
Inductive column : Type :=
| IntCol (xs : list Z)
| FloatCol (xs : list (option Qc))
| ObjCol (xs : list ocell).

(** A [pandas.DataFrame]: the length of its index and its named columns,
    in order. *)
Record DataFrame : Type := mkDataFrame {
  df_rows : nat;
  df_columns : list (string * column)
}.

Definition col_len (c : column) : nat :=
  match c with
  | IntCol xs => length xs
  | FloatCol xs => length xs
  | ObjCol xs => length xs
  end.

(** Every column has one cell per index entry. *)
Definition wf_frame (df : DataFrame) : bool :=
  forallb (λ nc, Nat.eqb (col_len (snd nc)) (df_rows df)) (df_columns df).

(** [str(series.dtype)] *)
Definition dtype_str (c : column) : string :=
  match c with
  | IntCol _ => "int64"
  | FloatCol _ => "float64"
  | ObjCol _ => "object"
  end.

Definition is_number (c : column) : bool :=
  match c with ObjCol _ => false | _ => true end.

Definition is_object (c : column) : bool :=
  match c with ObjCol _ => true | _ => false end.

Definition ocell_isnull (x : ocell) : bool :=
  match x with OStr _ => false | _ => true end.

(** [series.isnull().sum()] *)
Definition isnull_sum (c : column) : nat :=
  match c with
  | IntCol _ => 0
  | FloatCol xs => length (List.filter (λ x, negb (bool_decide (is_Some x))) xs)
  | ObjCol xs => length (List.filter ocell_isnull xs)
  end.

(** [data.columns.tolist()] *)
Definition columns (df : DataFrame) : list string := map fst (df_columns df).

(** [name in data.columns] *)
Definition col_in (name : string) (df : DataFrame) : bool :=
  bool_decide (name ∈ columns df).

Fixpoint assoc {A} (k : string) (l : list (string * A)) : option A :=
  match l with
  | [] => None
  | (k', v) :: l' => if String.eqb k k' then Some v else assoc k l'
  end.

(** [data[name]] *)
Definition getitem (name : string) (df : DataFrame) : outcome column :=
  match assoc name (df_columns df) with
  | Some c => Ret c
  | None => Raise (KeyError name)
  end.

(** [data.select_dtypes(include=[np.number]).columns] and
    [data.select_dtypes(include=['object']).columns] *)
Definition select_number (df : DataFrame) : list string :=
  map fst (List.filter (λ nc, is_number (snd nc)) (df_columns df)).

Definition select_object (df : DataFrame) : list string :=
  map fst (List.filter (λ nc, is_object (snd nc)) (df_columns df)).

(** *** Fitted transformers and models *)

(** The fitted attributes of a [StandardScaler]. *)
Record ScalerState : Type := mkScalerState {
  mean_ : list Qc;
  var_ : list Qc;
  scale_ : list Qc;
  n_samples_seen_ : nat
}.

(** A [StandardScaler] object: unfitted it has no [mean_]. *)
Record StandardScaler : Type := mkScaler { scaler_fitted : option ScalerState }.

(** A [LabelEncoder]: the distinct labels seen by [fit], sorted, a missing
    value last. *)
Record LabelEncoder : Type := mkLabelEncoder { classes_ : list ocell }.

(** Hyperparameter values. *)
Inductive hval : Type :=
| HNone
| HBool (b : bool)
| HInt (z : Z)
| HFloat (q : Qc)
| HStr (s : string).

Inductive ModelClass : Type :=
| RandomForestClassifier
| LogisticRegression
| DecisionTreeClassifier
| GradientBoostingClassifier.

(** A two-dimensional array of numbers with its shape. *)
Record ndarray : Type := mkArray {
  shape0 : nat;
  shape1 : nat;
  cells : list (list Qc)
}.

(** A scikit-learn estimator: its class, the keyword arguments it was
    constructed with and, once [fit] has run, the data it was fitted on
    (which stands for its fitted attributes). *)
Record Estimator : Type := mkEstimator {
  est_class : ModelClass;
  est_params : gmap string hval;
  est_fit : option (ndarray * list Z)
}.

(** Values of the [training_info] dictionary. *)
Inductive info_val : Type :=
| IStr (s : string)
| IInt (z : Z)
| IFloat (q : Qc)
| IParams (p : gmap string hval).

(** *** Files *)

(** What [joblib.dump] writes and [joblib.load] gives back. *)
Inductive pobj : Type :=
| PScaler (s : StandardScaler)
| PEncoders (e : gmap string LabelEncoder)
| PModel (m : Estimator)
| PInfo (i : gmap string info_val).

(** An entry of the file system: a file with what was written to it, or
    a directory. *)
Inductive file : Type :=
| FPickle (o : pobj)
| FPickleDict (d : gmap string pobj)
| FCsv (cols : list (string * column))
| FDir.

(** *** The world a method runs in *)

Definition ref : Type := nat.

Record world (Self : Type) : Type := mkWorld {
  heap : list DataFrame;        (* the DataFrame objects, by reference *)
  fs : gmap string file;        (* the file system, by path *)
  clock : nat;                  (* ticks of [datetime.now()] *)
  self : Self                   (* the receiver *)
}.
Arguments mkWorld {Self} heap fs clock self.
Arguments heap {Self} w.
Arguments fs {Self} w.
Arguments clock {Self} w.
Arguments self {Self} w.

Definition set_heap {Self} (h : list DataFrame) (w : world Self) : world Self :=
  mkWorld h (fs w) (clock w) (self w).
Definition set_fs {Self} (f : gmap string file) (w : world Self) : world Self :=
  mkWorld (heap w) f (clock w) (self w).
Definition set_self {Self} (s : Self) (w : world Self) : world Self :=
  mkWorld (heap w) (fs w) (clock w) s.

(** Reading the object a variable refers to.  A reference outside the
    store does not arise in Python; the model raises on it. *)
Definition deref {Self} (r : ref) : M (world Self) DataFrame :=
  λ w, match heap w !! r with
       | Some df => (Ret df, w)
       | None => (Raise (KeyError "dangling reference"), w)
       end.

(** A new object. *)
Definition alloc {Self} (df : DataFrame) : M (world Self) ref :=
  λ w, (Ret (length (heap w)), set_heap (heap w ++ [df]) w).

(** In-place update of the object at [r]. *)
Definition store {Self} (r : ref) (df : DataFrame) : M (world Self) unit :=
  modify (λ w, set_heap (<[r := df]> (heap w)) w).

(** [os.path.isdir(d)]: the current directory (the empty name), the
    root, or a directory of the file system. *)
Definition isdir (files : gmap string file) (d : string) : bool :=
  String.eqb (rstrip_slash d) ""
  || match files !! d with
     | Some FDir => true
     | _ => false
     end.

(** The exception [open(path, 'w')] raises, if it raises: the name must
    not be empty or that of a directory, and the directory it lies in must
    exist.  Permissions are not modelled. *)
Definition open_error (files : gmap string file) (path : string) : option exn :=
  if String.eqb path "" then Some (FileNotFoundError path)
  else if ends_with_slash path then
    match files !! rstrip_slash path with
    | Some FDir => Some (IsADirectoryError path)
    | Some _ => Some (NotADirectoryError path)
    | None =>
        if isdir files (dirname (rstrip_slash path))
        then Some (IsADirectoryError path)
        else Some (FileNotFoundError path)
    end
  else
    match files !! path with
    | Some FDir => Some (IsADirectoryError path)
    | _ =>
        if isdir files (dirname path) then None
        else match files !! dirname path with
             | Some _ => Some (NotADirectoryError path)
             | None => Some (FileNotFoundError path)
             end
    end.

(** [joblib.dump(obj, path)], [df.to_csv(path)]: the file is opened for
    writing and, if that does not raise, holds what was written. *)
Definition write_file {Self} (path : string) (f : file) : M (world Self) unit :=
  λ w, match open_error (fs w) path with
       | Some e => (Raise e, w)
       | None => (Ret tt, set_fs (<[path := f]> (fs w)) w)
       end.

(** [datetime.now()] *)
Definition now {Self} : M (world Self) nat :=
  λ w, (Ret (clock w), mkWorld (heap w) (fs w) (S (clock w)) (self w)).

(** A computation [c] keeps the objects of [base]: run in any store that
    begins with [base] it ends in a store that begins with [base] and is no
    shorter, and what it returns satisfies [Q]. *)
Definition keeps {Self A} (base : list DataFrame) (c : M (world Self) A) (Q : A → Prop) : Prop :=
  ∀ w, base `prefix_of` heap w →
    base `prefix_of` heap (snd (c w)) ∧
    length (heap w) ≤ length (heap (snd (c w))) ∧
    ∀ a, fst (c w) = Ret a → Q a.

(** [c] keeps the objects of [base] and what it returns is a reference
    to an object of the final store that is not one of [base]. *)
Definition returns_fresh {Self} (base : list DataFrame) (c : M (world Self) ref) : Prop :=
  ∀ w, base `prefix_of` heap w →
    base `prefix_of` heap (snd (c w)) ∧
    length (heap w) ≤ length (heap (snd (c w))) ∧
    ∀ out, fst (c w) = Ret out →
      length base ≤ out ∧ out < length (heap (snd (c w))).

(** [c] leaves the component [f] of the state as it was, whether it
    returns or raises. *)
Definition stable {S A X} (f : S → X) (c : M S A) : Prop :=
  ∀ s, f (snd (c s)) = f s.

(** A method call [c] that is handed the table [data] leaves every
    object of the caller's store as it was, the table at [data] among
    them, and returns a reference to a new object. *)
Definition leaves_input_unchanged {Self} (c : M (world Self) ref)
    (w : world Self) (data : ref) : Prop :=
  heap w `prefix_of` heap (snd (c w)) ∧
  heap (snd (c w)) !! data = heap w !! data ∧
  ∀ out, fst (c w) = Ret out →
    out ≠ data ∧ length (heap w) ≤ out ∧ is_Some (heap (snd (c w)) !! out).

(* --------------------------------------------------------------------- *)
(** ** src/data/validation.py                                              *)
(* --------------------------------------------------------------------- *)

Module Validation.

(** The values stored in [self.validation_report]. *)
Inductive report_val : Type :=
| RNames (l : list string)                       (* missing_columns *)
| RRatios (l : list (string * pyfloat))          (* high_missing_columns *)
| RMismatch (l : list (string * (string * string))).  (* type_mismatches *)

(** class DataValidation *)
Record DataValidation : Type := mkValidator {
  schema : gmap string string;
  validation_report : gmap string report_val
}.

(** [DataValidation(schema)] *)
Definition init (schema : option (gmap string string)) : DataValidation :=
  mkValidator (default ∅ schema) ∅.

(** [self.validation_report[key] = v] *)
Definition report_set (key : string) (v : report_val)
  : M (world DataValidation) unit :=
  modify (λ w, set_self (mkValidator (schema (self w))
                           (<[key := v]> (validation_report (self w)))) w).

Definition validate_columns (data : ref) (required_columns : list string)
  : M (world DataValidation) bool :=
  let* df := deref data in
  let missing := List.filter (λ col, negb (col_in col df)) required_columns in
  match missing with
  | _ :: _ =>
      let* _ := report_set "missing_columns" (RNames missing) in
      ret false
  | [] =>
      let* _ := report_set "missing_columns" (RNames []) in
      ret true
  end.

Definition validate_missing_values (data : ref) (threshold : pyfloat)
  : M (world DataValidation) bool :=
  let* df := deref data in
  let missing_ratios :=
    map (λ nc, (fst nc, count_div (isnull_sum (snd nc)) (df_rows df)))
        (df_columns df) in
  let problematic :=
    List.filter (λ nr, float_gt (snd nr) threshold) missing_ratios in
  if Nat.ltb 0 (length problematic) then
    let* _ := report_set "high_missing_columns" (RRatios problematic) in
    ret false
  else
    let* _ := report_set "high_missing_columns" (RRatios []) in
    ret true.

(** The loop over [expected_types.items()]. *)
Fixpoint type_mismatches (df : DataFrame) (expected_types : list (string * string))
  : list (string * (string * string)) :=
  match expected_types with
  | [] => []
  | (col, expected) :: rest =>
      match assoc col (df_columns df) with
      | Some c =>
          let actual := dtype_str c in
          if negb (str_in expected actual)
          then (col, (expected, actual)) :: type_mismatches df rest
          else type_mismatches df rest
      | None => type_mismatches df rest
      end
  end.

Definition validate_data_types (data : ref) (expected_types : list (string * string))
  : M (world DataValidation) bool :=
  let* df := deref data in
  let mismatches := type_mismatches df expected_types in
  match mismatches with
  | _ :: _ =>
      let* _ := report_set "type_mismatches" (RMismatch mismatches) in
      ret false
  | [] =>
      let* _ := report_set "type_mismatches" (RMismatch []) in
      ret true
  end.

(** The dictionary [validate_all] returns. *)
Record results : Type := mkResults {
  columns_valid : bool;
  missing_valid : bool;
  types_valid : bool;
  overall_valid : bool;
  details : gmap string report_val
}.

(** Python's truth value of an optional list or dict: [None] and the
    empty container are false. *)
Definition truthy {A} (o : option (list A)) : bool :=
  match o with
  | Some (_ :: _) => true
  | _ => false
  end.

(** [all([...])] *)
Definition all (l : list bool) : bool := forallb id l.

Definition validate_all (data : ref)
    (required_columns : option (list string))
    (expected_types : option (list (string * string)))
    (missing_threshold : pyfloat)
  : M (world DataValidation) results :=
  let* columns_valid :=
    if truthy required_columns
    then validate_columns data (default [] required_columns)
    else ret true in
  let* missing_valid := validate_missing_values data missing_threshold in
  let* types_valid :=
    if truthy expected_types
    then validate_data_types data (default [] expected_types)
    else ret true in
  let overall_valid := all [columns_valid; missing_valid; types_valid] in
  let* w := get in
  ret (mkResults columns_valid missing_valid types_valid overall_valid
         (validation_report (self w))).

(** *** Vocabulary of the statements about validation *)

(** The names [validate_columns] reports, the offending ratios
    [validate_missing_values] reports. *)
Definition missing_names (df : DataFrame) (required_columns : list string) : list string :=
  List.filter (λ col, negb (col_in col df)) required_columns.

Definition high_missing (df : DataFrame) (threshold : pyfloat) : list (string * pyfloat) :=
  List.filter (λ nr, float_gt (snd nr) threshold)
    (map (λ nc, (fst nc, count_div (isnull_sum (snd nc)) (df_rows df))) (df_columns df)).

Definition is_nil {A} (l : list A) : bool :=
  match l with [] => true | _ => false end.

Definition with_report (key : string) (v : report_val) (w : world DataValidation)
  : world DataValidation :=
  set_self (mkValidator (schema (self w)) (<[key := v]> (validation_report (self w)))) w.

(** What a call of [validate_all] writes into the validator's report:
    one entry per check that runs, over what was there before. *)
Definition report_after (df : DataFrame)
    (rc : option (list string)) (et : option (list (string * string)))
    (thr : pyfloat) (old : gmap string report_val) : gmap string report_val :=
  let r1 := if truthy rc
            then <["missing_columns" := RNames (missing_names df (default [] rc))]> old
            else old in
  let r2 := <["high_missing_columns" := RRatios (high_missing df thr)]> r1 in
  if truthy et
  then <["type_mismatches" := RMismatch (type_mismatches df (default [] et))]> r2
  else r2.

Definition flags_of (df : DataFrame)
    (rc : option (list string)) (et : option (list (string * string)))
    (thr : pyfloat) : bool * bool * bool :=
  (if truthy rc then is_nil (missing_names df (default [] rc)) else true,
   is_nil (high_missing df thr),
   if truthy et then is_nil (type_mismatches df (default [] et)) else true).

(** *** Sample data *)

Definition df_sample : DataFrame :=
  mkDataFrame 3 [("a", IntCol [1; 2; 3]%Z);
                 ("b", FloatCol [Some (Qc_of_Z 4); None; Some (Qc_of_Z 6)])].

Definition df_no_rows : DataFrame :=
  mkDataFrame 0 [("a", IntCol []); ("b", FloatCol []); ("c", ObjCol [])].

(** A freshly constructed validator, in a store holding [h]. *)
Definition fresh (h : list DataFrame) : world DataValidation :=
  mkWorld h ∅ 0 (init None).

(** The same validator after an earlier [validate_all] that asked for a
    column the table lacks. *)
Definition used (h : list DataFrame) : world DataValidation :=
  snd (validate_all 0 (Some ["zip"]) None (FNum (Qc_of_Z 1)) (fresh h)).

End Validation.

(* --------------------------------------------------------------------- *)
(** ** src/data/preprocessing.py                                           *)
(* --------------------------------------------------------------------- *)

(** What the module takes from scikit-learn, numpy and Python's float
    formatting. *)
Class PreprocOps : Type := {
  (** [SimpleImputer(strategy=s).fit_transform(X)] on the columns of [X] *)
  imputer_fit_transform : string → list column → outcome (list column);
  (** the statistics [StandardScaler.fit(X)] computes *)
  scaler_fit : list column → outcome ScalerState;
  (** [StandardScaler.transform(X)] with fitted statistics *)
  scaler_apply : ScalerState → list column → outcome (list column);
  (** [str(x)] of a float64 cell (NaN is [None]) and of an int64 cell *)
  str_of_float : option Qc → string;
  str_of_int : Z → string;
  (** the train and the test row positions [train_test_split] draws for
      [n] rows, a test size and a seed *)
  shuffle_split : nat → pyfloat → Z → outcome (list nat * list nat)
}.

Module Preprocessing.

(** class DataPreprocessing *)
Record DataPreprocessing : Type := mkPreproc {
  processed_data_path : string;
  artifacts_path : string;
  scaler : StandardScaler;
  label_encoders : gmap string LabelEncoder;
  imputer : string                (* the strategy of [self.imputer] *)
}.

(** [DataPreprocessing(processed_data_path, artifacts_path)]: the
    attributes of a new preprocessor.  The directories its [os.makedirs]
    creates are directories of the file system of the world it is used
    in. *)
Definition init (processed_data_path artifacts_path : string) : DataPreprocessing :=
  mkPreproc processed_data_path artifacts_path (mkScaler None) ∅ "mean".

Definition set_scaler (s : StandardScaler) : M (world DataPreprocessing) unit :=
  modify (λ w, set_self (mkPreproc (processed_data_path (self w)) (artifacts_path (self w))
                           s (label_encoders (self w)) (imputer (self w))) w).

(** [self.label_encoders[key] = le] *)
Definition set_label_encoder (key : string) (le : LabelEncoder)
  : M (world DataPreprocessing) unit :=
  modify (λ w, set_self (mkPreproc (processed_data_path (self w)) (artifacts_path (self w))
                           (scaler (self w)) (<[key := le]> (label_encoders (self w)))
                           (imputer (self w))) w).

(** *** pandas operations on a table *)

(** [data[names]] *)
Fixpoint getitems (names : list string) (df : DataFrame) : outcome (list column) :=
  match names with
  | [] => Ret []
  | n :: rest =>
      obind (getitem n df) (λ c, obind (getitems rest df) (λ cs, Ret (c :: cs)))
  end.

Fixpoint set_column (name : string) (c : column) (cols : list (string * column))
  : list (string * column) :=
  match cols with
  | [] => [(name, c)]
  | (n, c') :: rest =>
      if String.eqb name n then (n, c) :: rest
      else (n, c') :: set_column name c rest
  end.

(** [data[name] = values] *)
Definition setitem (name : string) (c : column) (df : DataFrame) : outcome DataFrame :=
  if Nat.eqb (col_len c) (df_rows df)
  then Ret (mkDataFrame (df_rows df) (set_column name c (df_columns df)))
  else Raise (ValueError "Length of values does not match length of index").

Fixpoint set_columns (names : list string) (values : list column) (df : DataFrame)
  : outcome DataFrame :=
  match names, values with
  | n :: names', c :: values' => obind (setitem n c df) (set_columns names' values')
  | _, _ => Ret df
  end.

(** [data[names] = values], [values] a two-dimensional array *)
Definition setitems (names : list string) (values : list column) (df : DataFrame)
  : outcome DataFrame :=
  if Nat.eqb (length names) (length values)
  then set_columns names values df
  else Raise (ValueError "Columns must be same length as key").

(** [data.replace({None: np.nan})] *)
Definition replace_none_nan (df : DataFrame) : DataFrame :=
  mkDataFrame (df_rows df)
    (map (λ nc, (fst nc,
                 match snd nc with
                 | ObjCol xs => ObjCol (map (λ x, match x with ONone => ONaN | _ => x end) xs)
                 | c => c
                 end)) (df_columns df)).

(** [data.drop(columns=[name])] *)
Definition drop_column (name : string) (df : DataFrame) : outcome DataFrame :=
  if col_in name df
  then Ret (mkDataFrame (df_rows df)
              (List.filter (λ nc, negb (String.eqb (fst nc) name)) (df_columns df)))
  else Raise (KeyError name).

Definition take {A} (idx : list nat) (xs : list A) : list A :=
  omap (λ i, xs !! i) idx.

Definition take_cells (idx : list nat) (c : column) : column :=
  match c with
  | IntCol xs => IntCol (take idx xs)
  | FloatCol xs => FloatCol (take idx xs)
  | ObjCol xs => ObjCol (take idx xs)
  end.

(** [data.iloc[idx]] *)
Definition take_rows (idx : list nat) (df : DataFrame) : outcome DataFrame :=
  if forallb (λ i, Nat.ltb i (df_rows df)) idx
  then Ret (mkDataFrame (length idx)
              (map (λ nc, (fst nc, take_cells idx (snd nc))) (df_columns df)))
  else Raise (IndexError "positional indexers are out-of-bounds").

(** [list.remove(x)] guarded by [x in list] *)
Fixpoint remove_first (x : string) (l : list string) : list string :=
  match l with
  | [] => []
  | y :: l' => if String.eqb x y then l' else y :: remove_first x l'
  end.

(** *** LabelEncoder *)

Fixpoint insert_sorted (s : string) (l : list string) : list string :=
  match l with
  | [] => [s]
  | x :: l' =>
      match String.compare s x with
      | Lt => s :: l
      | Eq => l
      | Gt => x :: insert_sorted s l'
      end
  end.

(** The sorted distinct values of a sequence of strings. *)
Definition unique_sorted (xs : list string) : list string :=
  fold_right insert_sorted [] xs.

Definition ocell_eqb (a b : ocell) : bool :=
  match a, b with
  | OStr s, OStr t => String.eqb s t
  | ONone, ONone => true
  | ONaN, ONaN => true
  | _, _ => false
  end.

Definition strings_of (xs : list ocell) : list string :=
  omap (λ x, match x with OStr s => Some s | _ => None end) xs.

(** [classes_]: the strings in order, then [None], then [NaN], each if
    it occurs. *)
Definition label_classes (xs : list ocell) : list ocell :=
  map OStr (unique_sorted (strings_of xs))
  ++ (if existsb (ocell_eqb ONone) xs then [ONone] else [])
  ++ (if existsb (ocell_eqb ONaN) xs then [ONaN] else []).

Fixpoint index_of (x : ocell) (l : list ocell) : nat :=
  match l with
  | [] => 0
  | y :: l' => if ocell_eqb x y then 0 else S (index_of x l')
  end.

(** [LabelEncoder().fit_transform(values)]: the encoder and the codes. *)
Definition label_fit_transform (xs : list ocell) : LabelEncoder * list Z :=
  let classes := label_classes xs in
  (mkLabelEncoder classes, map (λ x, Z.of_nat (index_of x classes)) xs).

Section WithOps.
Context {ops : PreprocOps}.

(** [series.astype(str)] *)
Definition astype_str (c : column) : list string :=
  match c with
  | IntCol xs => map str_of_int xs
  | FloatCol xs => map str_of_float xs
  | ObjCol xs => map (λ x, match x with
                           | OStr s => s
                           | ONone => "None"
                           | ONaN => "nan"
                           end) xs
  end.

(** *** StandardScaler *)

(** [self.scaler.fit_transform(X)]: [fit] resets the scaler, computes the
    statistics of [X] and stores them; then [X] is transformed. *)
Definition scaler_fit_transform (X : list column) : M (world DataPreprocessing) (list column) :=
  let* _ := set_scaler (mkScaler None) in
  let* st := lift (scaler_fit X) in
  let* _ := set_scaler (mkScaler (Some st)) in
  lift (scaler_apply st X).

(** [self.scaler.transform(X)]: reads the fitted statistics. *)
Definition scaler_transform (X : list column) : M (world DataPreprocessing) (list column) :=
  let* w := get in
  match scaler_fitted (scaler (self w)) with
  | None => raise (NotFittedError "This StandardScaler instance is not fitted yet")
  | Some st => lift (scaler_apply st X)
  end.

(** *** The methods *)

(** [data[names] = values] on the object [data] refers to *)
Definition assign_columns (data : ref) (names : list string) (values : list column)
  : M (world DataPreprocessing) unit :=
  let* df := deref data in
  let* df' := lift (setitems names values df) in
  store data df'.

Definition handle_missing_values (data : ref)
    (numerical_strategy categorical_strategy : string)
  : M (world DataPreprocessing) ref :=
  let* df := deref data in
  let* data := alloc df in                          (* data = data.copy() *)
  let* df := deref data in
  let* data := alloc (replace_none_nan df) in       (* data = data.replace(...) *)
  let* df := deref data in
  let numerical_cols := select_number df in
  let* _ :=
    if Nat.ltb 0 (length numerical_cols) then
      let* X := lift (getitems numerical_cols df) in
      let* filled := lift (imputer_fit_transform numerical_strategy X) in
      assign_columns data numerical_cols filled
    else ret tt in
  let* df := deref data in
  let categorical_cols := select_object df in
  let* _ :=
    if Nat.ltb 0 (length categorical_cols) then
      let* X := lift (getitems categorical_cols df) in
      let* filled := lift (imputer_fit_transform categorical_strategy X) in
      assign_columns data categorical_cols filled
    else ret tt in
  ret data.

(** The loop [for col in columns] of [encode_categorical]. *)
Fixpoint encode_loop (data : ref) (columns : list string)
  : M (world DataPreprocessing) unit :=
  match columns with
  | [] => ret tt
  | col :: rest =>
      let* df := deref data in
      let* _ :=
        if col_in col df then
          let* c := lift (getitem col df) in
          let le_codes := label_fit_transform (map OStr (astype_str c)) in
          let* df' := lift (setitem col (IntCol (snd le_codes)) df) in
          let* _ := store data df' in
          set_label_encoder col (fst le_codes)
        else ret tt in
      encode_loop data rest
  end.

Definition encode_categorical (data : ref) (columns : option (list string))
  : M (world DataPreprocessing) ref :=
  let* df := deref data in
  let* data := alloc df in                          (* data = data.copy() *)
  let* df := deref data in
  let columns :=
    match columns with
    | None => select_object df
    | Some l => l
    end in
  let* _ := encode_loop data columns in
  ret data.

Definition scale_features (data : ref) (columns : option (list string))
  : M (world DataPreprocessing) ref :=
  let* df := deref data in
  let* data := alloc df in                          (* data = data.copy() *)
  let* df := deref data in
  let columns :=
    match columns with
    | None => select_number df
    | Some l => l
    end in
  let* _ :=
    if Nat.ltb 0 (length columns) then
      let* X := lift (getitems columns df) in
      let* scaled := scaler_fit_transform X in
      assign_columns data columns scaled
    else ret tt in
  ret data.

Definition split_data (data : ref) (target_column : string)
    (test_size : pyfloat) (random_state : Z)
  : M (world DataPreprocessing) (ref * ref * column * column) :=
  let* df := deref data in
  let* Xdf := lift (drop_column target_column df) in
  let* X := alloc Xdf in
  let* y := lift (getitem target_column df) in
  let* idx := lift (shuffle_split (df_rows Xdf) test_size random_state) in
  let* train := lift (take_rows (fst idx) Xdf) in
  let* test := lift (take_rows (snd idx) Xdf) in
  let* X_train := alloc train in
  let* X_test := alloc test in
  ret (X_train, X_test, take_cells (fst idx) y, take_cells (snd idx) y).

Definition save_preprocessors : M (world DataPreprocessing) unit :=
  let* w := get in
  let scaler_path := path_join (artifacts_path (self w)) "scaler.pkl" in
  let encoders_path := path_join (artifacts_path (self w)) "label_encoders.pkl" in
  let* _ := write_file scaler_path (FPickle (PScaler (scaler (self w)))) in
  write_file encoders_path (FPickle (PEncoders (label_encoders (self w)))).

(** [frame.to_csv(path, index=False)] *)
Definition to_csv (data : ref) (path : string) : M (world DataPreprocessing) unit :=
  let* df := deref data in
  write_file path (FCsv (df_columns df)).

(** Steps 1 to 4 of [preprocess_pipeline]. *)
Definition pipeline_split (data : ref) (target_column : string) (test_size : pyfloat)
  : M (world DataPreprocessing) (ref * ref * column * column) :=
  (* Step 1: Handle missing values *)
  let* data := handle_missing_values data "mean" "most_frequent" in
  (* Step 2: Encode categorical (except target if it's categorical) *)
  let* df := deref data in
  let categorical_cols := select_object df in
  let categorical_cols :=
    if bool_decide (target_column ∈ categorical_cols)
    then remove_first target_column categorical_cols
    else categorical_cols in
  let* data := encode_categorical data (Some categorical_cols) in
  (* Step 3: Encode target if categorical *)
  let* df := deref data in
  let* target := lift (getitem target_column df) in
  let* _ :=
    match target with
    | ObjCol xs =>
        let le_codes := label_fit_transform xs in
        let* df' := lift (setitem target_column (IntCol (snd le_codes)) df) in
        let* _ := store data df' in
        set_label_encoder "target" (fst le_codes)
    | _ => ret tt
    end in
  (* Step 4: Split data *)
  split_data data target_column test_size 42.

(** Step 5, first line: the scaler is fitted on the train features. *)
Definition scale_train (X_train : ref) : M (world DataPreprocessing) (list string) :=
  let* df := deref X_train in
  let feature_cols := columns df in
  let* X := lift (getitems feature_cols df) in
  let* scaled := scaler_fit_transform X in
  let* _ := assign_columns X_train feature_cols scaled in
  ret feature_cols.

(** Step 5, second line: the fitted scaler is applied to the test
    features. *)
Definition scale_test (feature_cols : list string) (X_test : ref)
  : M (world DataPreprocessing) unit :=
  let* df := deref X_test in
  let* X := lift (getitems feature_cols df) in
  let* scaled := scaler_transform X in
  assign_columns X_test feature_cols scaled.

(** Steps 6 and 7. *)
Definition persist (X_train X_test : ref) (target_column : string) (y_train y_test : column)
  : M (world DataPreprocessing) unit :=
  let* _ := save_preprocessors in
  let* w := get in
  let dir := processed_data_path (self w) in
  let* _ := to_csv X_train (path_join dir "X_train.csv") in
  let* _ := to_csv X_test (path_join dir "X_test.csv") in
  let* _ := write_file (path_join dir "y_train.csv") (FCsv [(target_column, y_train)]) in
  write_file (path_join dir "y_test.csv") (FCsv [(target_column, y_test)]).

Definition preprocess_pipeline (data : ref) (target_column : string) (test_size : pyfloat)
  : M (world DataPreprocessing) (ref * ref * column * column) :=
  let* parts := pipeline_split data target_column test_size in
  let '(X_train, X_test, y_train, y_test) := parts in
  let* feature_cols := scale_train X_train in
  let* _ := scale_test feature_cols X_test in
  let* _ := persist X_train X_test target_column y_train y_test in
  ret (X_train, X_test, y_train, y_test).

End WithOps.

End Preprocessing.

(* --------------------------------------------------------------------- *)
(** ** src/models/train.py                                                 *)
(* --------------------------------------------------------------------- *)

(** What the module takes from scikit-learn and from [datetime]. *)
Class EstimatorOps : Type := {
  (** the keyword arguments the constructor of a class accepts *)
  accepts_kwarg : ModelClass → string → bool;
  (** the exception [estimator.fit(X, y)] raises, if it raises *)
  fit_error : Estimator → ndarray → list Z → option exn;
  (** [estimator.predict(X)] and [estimator.predict_proba(X)] *)
  estimator_predict : Estimator → ndarray → outcome (list Z);
  estimator_predict_proba : Estimator → ndarray → outcome (list (list Qc));
  (** [hasattr(estimator, 'predict_proba')] *)
  has_predict_proba : Estimator → bool;
  (** [estimator.get_params()] *)
  get_params : Estimator → gmap string hval;
  (** [t.isoformat()], [t.strftime("%Y%m%d_%H%M%S")] and
      [(t2 - t1).total_seconds()] of clock readings *)
  isoformat : nat → string;
  strftime : nat → string;
  total_seconds : nat → nat → Qc
}.

Module Train.

(** class ModelTrainer *)
Record ModelTrainer : Type := mkTrainer {
  artifacts_path : string;
  model : option Estimator;
  model_name : option string;
  training_info : gmap string info_val
}.

(** [ModelTrainer(artifacts_path)]: the attributes of a new trainer.  The
    directory its [os.makedirs] creates is a directory of the file system
    of the world the trainer is used in. *)
Definition init (artifacts_path : string) : ModelTrainer :=
  mkTrainer artifacts_path None None ∅.

(** The class attribute [MODELS], in the order of the source. *)
Definition MODELS : list (string * ModelClass) :=
  [("random_forest", RandomForestClassifier);
   ("logistic_regression", LogisticRegression);
   ("decision_tree", DecisionTreeClassifier);
   ("gradient_boosting", GradientBoostingClassifier)].

(** The dictionary [default_params] of [get_model]. *)
Definition default_params : gmap string (gmap string hval) :=
  list_to_map
    [("random_forest",
      list_to_map [("n_estimators", HInt 100); ("random_state", HInt 42)]);
     ("logistic_regression",
      list_to_map [("random_state", HInt 42); ("max_iter", HInt 1000)]);
     ("decision_tree",
      list_to_map [("random_state", HInt 42)]);
     ("gradient_boosting",
      list_to_map [("n_estimators", HInt 100); ("random_state", HInt 42)])].

(** The merge of [default_params.get(model_name, {})] and [params] in one
    dictionary display, the defaults first: the entries of [params] over
    those of the defaults. *)
Definition final_params (model_name : string) (params : gmap string hval)
  : gmap string hval :=
  params ∪ default ∅ (default_params !! model_name).

Definition unknown_model_message (model_name : string) : string :=
  "Unknown model: " +:+ model_name +:+ ". Available: "
  +:+ repr_str_list (map fst MODELS).

Definition set_model (m : option Estimator) : M (world ModelTrainer) unit :=
  modify (λ w, set_self (mkTrainer (artifacts_path (self w)) m
                           (model_name (self w)) (training_info (self w))) w).

Definition set_model_name (n : option string) : M (world ModelTrainer) unit :=
  modify (λ w, set_self (mkTrainer (artifacts_path (self w)) (model (self w))
                           n (training_info (self w))) w).

Definition set_training_info (i : gmap string info_val) : M (world ModelTrainer) unit :=
  modify (λ w, set_self (mkTrainer (artifacts_path (self w)) (model (self w))
                           (model_name (self w)) i) w).

Section WithOps.
Context {ops : EstimatorOps}.

(** The call of [model_class] with the keyword arguments [kwargs]: an
    unexpected keyword argument is a [TypeError]. *)
Definition construct (model_class : ModelClass) (kwargs : gmap string hval)
  : outcome Estimator :=
  if bool_decide (map_Forall (λ k _, accepts_kwarg model_class k = true) kwargs)
  then Ret (mkEstimator model_class kwargs None)
  else Raise (TypeError "__init__() got an unexpected keyword argument").

Definition get_model (model_name : string) (params : gmap string hval)
  : outcome Estimator :=
  match assoc model_name MODELS with
  | None => Raise (ValueError (unknown_model_message model_name))
  | Some model_class => construct model_class (final_params model_name params)
  end.

(** [estimator.fit(X, y)], which fits the estimator object in place. *)
Definition fit (m : Estimator) (X : ndarray) (y : list Z) : outcome Estimator :=
  match fit_error m X y with
  | Some e => Raise e
  | None => Ret (mkEstimator (est_class m) (est_params m) (Some (X, y)))
  end.

Definition train (X_train : ndarray) (y_train : list Z)
    (model_name : string) (params : gmap string hval)
  : M (world ModelTrainer) Estimator :=
  let* _ := set_model_name (Some model_name) in
  let* m := lift (get_model model_name params) in
  let* _ := set_model (Some m) in
  let* start_time := now in
  let* fitted := lift (fit m X_train y_train) in
  let* _ := set_model (Some fitted) in
  let* end_time := now in
  let* _ := set_training_info
    (list_to_map
       [("model_name", IStr model_name);
        ("training_samples", IInt (Z.of_nat (shape0 X_train)));
        ("features", IInt (Z.of_nat (shape1 X_train)));
        ("start_time", IStr (isoformat start_time));
        ("end_time", IStr (isoformat end_time));
        ("duration_seconds", IFloat (total_seconds start_time end_time));
        ("parameters", IParams (get_params fitted))]) in
  ret fitted.



(** [trainer.predict(X)] and [trainer.predict_proba(X)] read the trainer
    and change nothing. *)
Definition predict (self : ModelTrainer) (X : ndarray) : outcome (list Z) :=
  match model self with
  | None => Raise (ValueError "No model loaded. Train or load a model first!")
  | Some m => estimator_predict m X
  end.

Definition predict_proba (self : ModelTrainer) (X : ndarray) : outcome (list (list Qc)) :=
  match model self with
  | None => Raise (ValueError "No model loaded. Train or load a model first!")
  | Some m =>
      if has_predict_proba m then estimator_predict_proba m X
      else Raise (ValueError ("Model " +:+ default "None" (model_name self)
                              +:+ " doesn't support predict_proba"))
  end.

End WithOps.

(** *** Vocabulary of the statements about training *)

(** The model types of the specification, with the classifier of each. *)
Definition supported_models : list (string * ModelClass) :=
  [("random_forest", RandomForestClassifier);
   ("logistic_regression", LogisticRegression);
   ("decision_tree", DecisionTreeClassifier);
   ("gradient_boosting", GradientBoostingClassifier)].

(** The named defaults as the specification lists them. *)
Definition documented_defaults (model_name : string) : list (string * hval) :=
  if String.eqb model_name "random_forest"
  then [("n_estimators", HInt 100); ("random_state", HInt 42)]
  else if String.eqb model_name "logistic_regression"
  then [("random_state", HInt 42); ("max_iter", HInt 1000)]
  else if String.eqb model_name "decision_tree"
  then [("random_state", HInt 42)]
  else if String.eqb model_name "gradient_boosting"
  then [("n_estimators", HInt 100); ("random_state", HInt 42)]
  else [].

End Train.

(* --------------------------------------------------------------------- *)
(** ** src/models/evaluate.py                                              *)
(* --------------------------------------------------------------------- *)

(** The functions of [sklearn.metrics] the module calls; the precision,
    recall and F1 scores are the ones with [average='weighted'] and
    [zero_division=0]. *)
Class MetricOps : Type := {
  accuracy_score : list Z → list Z → outcome Qc;
  precision_score : list Z → list Z → outcome Qc;
  recall_score : list Z → list Z → outcome Qc;
  f1_score : list Z → list Z → outcome Qc;
  confusion_matrix : list Z → list Z → outcome (list (list nat));
  roc_auc_score : list Z → list Qc → outcome Qc
}.

Module Evaluate.

(** The values of the [metrics] dictionary; [MNull] is [None]. *)
Inductive mval : Type :=
| MFloat (q : Qc)
| MInt (z : Z)
| MMatrix (m : list (list nat))
| MNull.

(** What a caller can pass as [y_proba]: a one-dimensional array of
    scores, a two-dimensional array with its number of columns, or an
    object that has no [shape] (a Python list). *)
Inductive proba : Type :=
| Scores (s : list Qc)
| Matrix (ncols : nat) (rows : list (list Qc))
| NoShape (rows : list (list Qc)).

(** class ModelEvaluator *)
Record ModelEvaluator : Type := mkEvaluator {
  artifacts_path : string;
  metrics : gmap string mval
}.

Definition init (artifacts_path : string) : ModelEvaluator :=
  mkEvaluator artifacts_path ∅.

(** [self.metrics = m] and [self.metrics[key] = v] *)
Definition set_metrics (m : gmap string mval) : M ModelEvaluator unit :=
  modify (λ s, mkEvaluator (artifacts_path s) m).

Definition metrics_set (key : string) (v : mval) : M ModelEvaluator unit :=
  modify (λ s, mkEvaluator (artifacts_path s) (<[key := v]> (metrics s))).

(** [len(y_proba.shape)] *)
Definition ndim (p : proba) : outcome nat :=
  match p with
  | Scores _ => Ret 1
  | Matrix _ _ => Ret 2
  | NoShape _ => Raise (AttributeError "'list' object has no attribute 'shape'")
  end.

(** [y_proba[:, 1]] *)
Definition column_1 (p : proba) : outcome (list Qc) :=
  match p with
  | Matrix ncols rows =>
      if Nat.ltb 1 ncols
      then mapM (λ r, match r !! 1 with
                      | Some x => Ret x
                      | None => Raise (IndexError "index 1 is out of bounds for axis 1")
                      end) rows
      else Raise (IndexError "index 1 is out of bounds for axis 1 with size 1")
  | Scores _ => Raise (IndexError "too many indices for array")
  | NoShape _ => Raise (TypeError "list indices must be integers or slices, not tuple")
  end.

(** The scores as [roc_auc_score] takes them once they are
    one-dimensional. *)
Definition as_scores (p : proba) : outcome (list Qc) :=
  match p with
  | Scores s => Ret s
  | _ => Raise (ValueError "y should be a 1d array")
  end.

(** The two statements before the call of [roc_auc_score]: the
    positive-class column of a two-dimensional [y_proba]. *)
Definition positive_scores (p : proba) : outcome (list Qc) :=
  obind (ndim p) (λ n, if Nat.ltb 1 n then column_1 p else as_scores p).

Section WithOps.
Context {ops : MetricOps}.

Definition calculate_metrics (y_true y_pred : list Z) (y_proba : option proba)
  : M ModelEvaluator (gmap string mval) :=
  (* Determine if binary or multiclass *)
  let n_classes := length (remove_dups y_true) in
  let is_binary := Nat.eqb n_classes 2 in
  (* Calculate metrics *)
  let* accuracy := lift (accuracy_score y_true y_pred) in
  let* precision := lift (precision_score y_true y_pred) in
  let* recall := lift (recall_score y_true y_pred) in
  let* f1 := lift (f1_score y_true y_pred) in
  let* cm := lift (confusion_matrix y_true y_pred) in
  let* _ := set_metrics
    (list_to_map
       [("accuracy", MFloat accuracy);
        ("precision", MFloat precision);
        ("recall", MFloat recall);
        ("f1_score", MFloat f1);
        ("confusion_matrix", MMatrix cm);
        ("n_classes", MInt (Z.of_nat n_classes));
        ("samples_evaluated", MInt (Z.of_nat (length y_true)))]) in
  (* ROC-AUC for binary classification *)
  let* _ :=
    match y_proba with
    | Some p =>
        if is_binary then
          try_except
            (let* scores := lift (positive_scores p) in
             let* auc := lift (roc_auc_score y_true scores) in
             metrics_set "roc_auc" (MFloat auc))
            (λ e, metrics_set "roc_auc" MNull)
        else ret tt
    | None => ret tt
    end in
  let* s := get in
  ret (metrics s).

End WithOps.

End Evaluate.

(* --------------------------------------------------------------------- *)
(** ** src/api/schemas.py and src/api/routes.py                            *)
(* --------------------------------------------------------------------- *)

Module Routes.

(** class ModelType(str, Enum) and its values *)
Inductive ModelType : Type :=
| random_forest
| logistic_regression
| decision_tree
| gradient_boosting.

Definition value (m : ModelType) : string :=
  match m with
  | random_forest => "random_forest"
  | logistic_regression => "logistic_regression"
  | decision_tree => "decision_tree"
  | gradient_boosting => "gradient_boosting"
  end.

Record PredictionRequest : Type := mkPredictionRequest {
  features : list Qc;
  model : option ModelType
}.

Record PredictionResponse : Type := mkPredictionResponse {
  prediction : Z;
  prediction_label : option string;
  probability : option (list Qc)
}.

Record BatchPredictionRequest : Type := mkBatchPredictionRequest {
  instances : list (list Qc)
}.

Record BatchPredictionResponse : Type := mkBatchPredictionResponse {
  predictions : list Z;
  count : Z
}.

(** The module's one mutable global, [loaded_models]: a dictionary from
    model name to trainer, in insertion order. *)
Definition registry : Type := list (string * Train.ModelTrainer).

Definition default_model_name : string := "random_forest".

Definition COVER_TYPE_LABELS : list (Z * string) :=
  [(1, "Spruce/Fir"); (2, "Lodgepole Pine"); (3, "Ponderosa Pine");
   (4, "Cottonwood/Willow"); (5, "Aspen"); (6, "Douglas-fir");
   (7, "Krummholz")]%Z.

Definition labels_get (k : Z) : option string :=
  snd <$> List.find (λ kv, Z.eqb (fst kv) k) COVER_TYPE_LABELS.

(** *** Name resolution *)

(** What a name of the module can be bound to, as far as the handlers
    tell the values apart. *)
Inductive gval : Type :=
| GTrainer (t : option Train.ModelTrainer)   (* a trainer, or [None] *)
| GModels (m : registry)
| GStr (s : string)
| GOther.                                    (* a function, class or module *)

(** The names routes.py binds at module level: its imports, its
    assignments and its function definitions, in the order of the source. *)
Definition globals (loaded_models : registry) : list (string * gval) :=
  [("APIRouter", GOther); ("HTTPException", GOther); ("np", GOther);
   ("List", GOther); ("Dict", GOther);
   ("HealthResponse", GOther); ("ModelInfoResponse", GOther);
   ("PredictionRequest", GOther); ("PredictionResponse", GOther);
   ("BatchPredictionRequest", GOther); ("BatchPredictionResponse", GOther);
   ("ModelType", GOther);
   ("router", GOther);
   ("loaded_models", GModels loaded_models);
   ("default_model_name", GStr default_model_name);
   ("COVER_TYPE_LABELS", GOther);
   ("set_loaded_models", GOther); ("get_model", GOther);
   ("health_check", GOther); ("get_model_info", GOther);
   ("predict", GOther); ("predict_batch", GOther)].

(** The builtins the module refers to. *)
Definition builtins : list string :=
  ["int"; "len"; "list"; "str"; "hasattr"; "Exception"].

(** Reading a name that is not local to the function: the module's
    globals, then the builtins, else [NameError]. *)
Definition load_global (name : string) : M registry gval :=
  λ loaded_models,
    match assoc name (globals loaded_models) with
    | Some v => (Ret v, loaded_models)
    | None =>
        if bool_decide (name ∈ builtins) then (Ret GOther, loaded_models)
        else (Raise (NameError name), loaded_models)
    end.

(** *** Handlers *)

Definition set_loaded_models (models : registry) : M registry unit :=
  modify (λ _, models).

Definition get_model (model_name : string) : M registry (option Train.ModelTrainer) :=
  let* loaded_models := get in
  ret (assoc model_name loaded_models).

(** [np.array(rows)] of a list of lists of floats *)
Definition np_array (rows : list (list Qc)) : outcome ndarray :=
  match rows with
  | [] => Ret (mkArray 0 0 [])
  | r :: _ =>
      if forallb (λ r', Nat.eqb (length r') (length r)) rows
      then Ret (mkArray (length rows) (length r) rows)
      else Raise (ValueError "setting an array element with a sequence")
  end.

(** The model's validation of a response: [prediction] has [ge=1] and
    [le=7]. *)
Definition make_response (prediction : Z) (label : option string)
    (probability : option (list Qc)) : outcome PredictionResponse :=
  if (Z.leb 1 prediction && Z.leb prediction 7)%bool
  then Ret (mkPredictionResponse prediction label probability)
  else Raise (ValidationError "1 validation error for PredictionResponse").

(** What FastAPI answers: an [HTTPException] with its status code, any
    other exception as an internal server error. *)
Definition status_code {A} (o : outcome A) : Z :=
  match o with
  | Ret _ => 200
  | Raise (HTTPException code _) => code
  | Raise _ => 500
  end.

Section WithOps.
Context {ops : EstimatorOps}.

(** The part of a handler that reads a trainer's attribute [model]. *)
Definition model_is_none (v : gval) : outcome bool :=
  match v with
  | GTrainer None => Ret true      (* short-circuit of [is None or] *)
  | GTrainer (Some t) => Ret (bool_decide (Train.model t = None))
  | _ => Raise (AttributeError "object has no attribute 'model'")
  end.

Definition trainer_predict (v : gval) (X : ndarray) : outcome (list Z) :=
  match v with
  | GTrainer (Some t) => Train.predict t X
  | _ => Raise (AttributeError "object has no attribute 'predict'")
  end.

Definition predict (request : PredictionRequest) : M registry PredictionResponse :=
  let model_name :=
    match model request with
    | Some m => value m
    | None => default_model_name
    end in
  let* model_trainer := get_model model_name in
  let* unavailable := lift (model_is_none (GTrainer model_trainer)) in
  if unavailable then
    let* loaded_models := get in
    raise (HTTPException 503
             ("Model '" +:+ model_name +:+ "' not loaded. Available: "
              +:+ repr_str_list (map fst loaded_models)))
  else
    try_except
      (let X := mkArray 1 (length (features request)) [features request] in
       let* ys := lift (trainer_predict (GTrainer model_trainer) X) in
       let* prediction :=
         match ys with
         | y :: _ => ret y
         | [] => raise (IndexError "index 0 is out of bounds")
         end in
       let prediction_label := labels_get prediction in
       let probability :=
         match model_trainer with
         | Some t =>
             match Train.model t with
             | Some m =>
                 if has_predict_proba m then
                   match Train.predict_proba t X with
                   | Ret (row :: _) => Some row
                   | _ => None
                   end
                 else None
             | None => None
             end
         | None => None
         end in
       lift (make_response prediction prediction_label probability))
      (λ e, raise (HTTPException 400 (exn_str e))).

Definition predict_batch (request : BatchPredictionRequest)
  : M registry BatchPredictionResponse :=
  (* [model_trainer] is neither a parameter nor assigned in the function *)
  let* model_trainer := load_global "model_trainer" in
  let* unavailable := lift (model_is_none model_trainer) in
  if unavailable then
    raise (HTTPException 503 "Model not loaded")
  else
    try_except
      (let* X := lift (np_array (instances request)) in
       let* ys := lift (trainer_predict model_trainer X) in
       ret (mkBatchPredictionResponse ys (Z.of_nat (length ys))))
      (λ e, raise (HTTPException 400 (exn_str e))).

(** *** The batch handler the specification describes *)

(** Not the handler of the source: batch prediction as the specification
    and the endpoint's description word it, "using the implicit default
    model only".  The trainer is fetched from the registry under
    [default_model_name], the way [predict] fetches the requested one;
    the rest is the source's. *)
Definition predict_batch_documented (request : BatchPredictionRequest)
  : M registry BatchPredictionResponse :=
  let* model_trainer := get_model default_model_name in
  let* unavailable := lift (model_is_none (GTrainer model_trainer)) in
  if unavailable then
    raise (HTTPException 503 "Model not loaded")
  else
    try_except
      (let* X := lift (np_array (instances request)) in
       let* ys := lift (trainer_predict (GTrainer model_trainer) X) in
       ret (mkBatchPredictionResponse ys (Z.of_nat (length ys))))
      (λ e, raise (HTTPException 400 (exn_str e))).

End WithOps.

End Routes.

(* --------------------------------------------------------------------- *)
(** ** A sample instance of the library interface                          *)
(* --------------------------------------------------------------------- *)

(** What follows instantiates [PreprocOps] with exact rational
    arithmetic, so that the embedding can be run on sample tables.  It
    follows scikit-learn's definitions with two simplifications: the
    scale of a feature is its variance (no square root is taken), and the
    split takes the first rows as the test partition (no shuffling). *)
Module Sample.

Definition qsum (xs : list Qc) : Qc := fold_right Qcplus (Qc_of_Z 0) xs.

Definition qmean (xs : list Qc) : Qc :=
  (qsum xs / Qc_of_Z (Z.of_nat (length xs)))%Qc.

Definition qvar (xs : list Qc) : Qc :=
  let m := qmean xs in qmean (map (λ x, ((x - m) * (x - m))%Qc) xs).

Definition numbers (c : column) : outcome (list (option Qc)) :=
  match c with
  | IntCol xs => Ret (map (λ z, Some (Qc_of_Z z)) xs)
  | FloatCol xs => Ret xs
  | ObjCol _ => Raise (ValueError "could not convert string to float")
  end.

Definition count_str (s : string) (xs : list string) : nat :=
  length (List.filter (String.eqb s) xs).

(** The most frequent string, the smallest among equals. *)
Definition most_frequent (xs : list string) : option string :=
  fold_right (λ s best,
                match best with
                | None => Some s
                | Some b => if Nat.ltb (count_str s xs) (count_str b xs)
                            then Some b else Some s
                end) None (Preprocessing.unique_sorted xs).

Definition impute_column (strategy : string) (c : column) : outcome column :=
  match c with
  | ObjCol xs =>
      if String.eqb strategy "most_frequent" then
        match most_frequent (Preprocessing.strings_of xs) with
        | Some s => Ret (ObjCol (map (λ x, if ocell_isnull x then OStr s else x) xs))
        | None => Raise (ValueError "no observed value to impute with")
        end
      else Raise (ValueError "Cannot use this strategy with non-numeric data")
  | _ =>
      obind (numbers c) (λ xs,
        if String.eqb strategy "mean" then
          match omap id xs with
          | [] => Raise (ValueError "no observed value to impute with")
          | present => Ret (FloatCol (map (λ x, Some (default (qmean present) x)) xs))
          end
        else Raise (ValueError "strategy not provided by the sample instance"))
  end.

Definition dense (c : column) : outcome (list Qc) :=
  obind (numbers c) (λ xs,
    if forallb (λ x, bool_decide (is_Some x)) xs
    then Ret (omap id xs)
    else Raise (ValueError "Input contains NaN"))%Qc.

Definition sample_scaler_fit (X : list column) : outcome ScalerState :=
  obind (mapM dense X) (λ cols,
    match cols with
    | [] => Raise (ValueError "at least one feature is required")
    | c :: _ =>
        if Nat.eqb (length c) 0
        then Raise (ValueError "Found array with 0 sample(s)")
        else Ret (mkScalerState (map qmean cols) (map qvar cols)
                    (map (λ xs, if Qeq_bool (qvar xs) 0 then Qc_of_Z 1 else qvar xs) cols)
                    (length c))
    end).

Fixpoint standardize (ms ss : list Qc) (cols : list (list Qc)) : list column :=
  match ms, ss, cols with
  | m :: ms', s :: ss', c :: cols' =>
      FloatCol (map (λ x, Some ((x - m) / s)%Qc) c) :: standardize ms' ss' cols'
  | _, _, _ => []
  end.

Definition sample_scaler_apply (st : ScalerState) (X : list column) : outcome (list column) :=
  obind (mapM dense X) (λ cols,
    if Nat.eqb (length cols) (length (mean_ st))
    then Ret (standardize (mean_ st) (scale_ st) cols)
    else Raise (ValueError "X has a different number of features than was fitted"))%Qc.

Definition sample_str_of_float (x : option Qc) : string :=
  match x with
  | None => "nan"
  | Some q => pretty (Qnum q) +:+ "/" +:+ pretty (Zpos (Qden q))
  end.

Definition sample_split (n : nat) (test_size : pyfloat) (seed : Z)
  : outcome (list nat * list nat) :=
  match test_size with
  | FNum q =>
      let n_test := Z.to_nat (Qceiling (q * inject_Z (Z.of_nat n))) in
      if (Nat.eqb n_test 0 || Nat.leb n n_test)%bool
      then Raise (ValueError "the resulting train or test set will be empty")
      else Ret (seq n_test (n - n_test), seq 0 n_test)
  | _ => Raise (ValueError "test_size must be a number")
  end.

Definition sample_ops : PreprocOps := {|
  imputer_fit_transform strategy X := mapM (impute_column strategy) X;
  scaler_fit := sample_scaler_fit;
  scaler_apply := sample_scaler_apply;
  str_of_float := sample_str_of_float;
  str_of_int := pretty;
  shuffle_split := sample_split
|}.

(** A table with a numeric and a categorical feature, a missing value in
    each, and a categorical target. *)
Definition df_mixed : DataFrame :=
  mkDataFrame 4
    [("num", FloatCol [Some (Qc_of_Z 1); Some (Qc_of_Z 2); None; Some (Qc_of_Z 6)]);
     ("cat", ObjCol [OStr "a"; ONone; OStr "b"; OStr "a"]);
     ("y", ObjCol [OStr "no"; OStr "yes"; OStr "yes"; OStr "no"])].

(** The directories the constructors create with [os.makedirs]. *)
Definition dirs : gmap string file :=
  list_to_map [("artifacts", FDir); ("data", FDir); ("data/processed", FDir)].

(** A new preprocessor, in a store that holds [df_mixed]. *)
Definition w_mixed : world Preprocessing.DataPreprocessing :=
  mkWorld [df_mixed] dirs 0 (Preprocessing.init "data/processed" "artifacts").

(** The keyword arguments of the four constructors (scikit-learn 1.4). *)
Definition signature (c : ModelClass) : list string :=
  match c with
  | RandomForestClassifier =>
      ["n_estimators"; "criterion"; "max_depth"; "min_samples_split";
       "min_samples_leaf"; "min_weight_fraction_leaf"; "max_features";
       "max_leaf_nodes"; "min_impurity_decrease"; "bootstrap"; "oob_score";
       "n_jobs"; "random_state"; "verbose"; "warm_start"; "class_weight";
       "ccp_alpha"; "max_samples"; "monotonic_cst"]
  | LogisticRegression =>
      ["penalty"; "dual"; "tol"; "C"; "fit_intercept"; "intercept_scaling";
       "class_weight"; "random_state"; "solver"; "max_iter"; "multi_class";
       "verbose"; "warm_start"; "n_jobs"; "l1_ratio"]
  | DecisionTreeClassifier =>
      ["criterion"; "splitter"; "max_depth"; "min_samples_split";
       "min_samples_leaf"; "min_weight_fraction_leaf"; "max_features";
       "random_state"; "max_leaf_nodes"; "min_impurity_decrease";
       "class_weight"; "ccp_alpha"; "monotonic_cst"]
  | GradientBoostingClassifier =>
      ["loss"; "learning_rate"; "n_estimators"; "subsample"; "criterion";
       "min_samples_split"; "min_samples_leaf"; "min_weight_fraction_leaf";
       "max_depth"; "min_impurity_decrease"; "init"; "random_state";
       "max_features"; "verbose"; "max_leaf_nodes"; "warm_start";
       "validation_fraction"; "n_iter_no_change"; "tol"; "ccp_alpha"]
  end.

Definition count_label (z : Z) (ys : list Z) : nat :=
  length (List.filter (Z.eqb z) ys).

(** The most frequent label, the smallest among equals. *)
Definition majority (ys : list Z) : Z :=
  fold_right (λ z best,
                if (Nat.ltb (count_label best ys) (count_label z ys)
                    || (Nat.eqb (count_label best ys) (count_label z ys) && Z.ltb z best))%bool
                then z else best) (hd 0%Z ys) ys.

(** A stand-in for the four classifiers: fitted, each predicts the most
    frequent label of its training set for every row. *)
Definition sample_predict (m : Estimator) (X : ndarray) : outcome (list Z) :=
  match est_fit m with
  | None => Raise (NotFittedError "This estimator instance is not fitted yet")
  | Some (X0, y0) =>
      if Nat.eqb (shape1 X) (shape1 X0)
      then Ret (map (λ _, majority y0) (cells X))
      else Raise (ValueError "X has a different number of features than was fitted")
  end.

Definition sample_predict_proba (m : Estimator) (X : ndarray) : outcome (list (list Qc)) :=
  match est_fit m with
  | None => Raise (NotFittedError "This estimator instance is not fitted yet")
  | Some (X0, y0) =>
      if Nat.eqb (shape1 X) (shape1 X0)
      then Ret (map (λ _, map (λ c, if Z.eqb c (majority y0)
                                    then Qc_of_Z 1 else Qc_of_Z 0)
                              (remove_dups y0)) (cells X))
      else Raise (ValueError "X has a different number of features than was fitted")
  end.

Definition sample_estimators : EstimatorOps := {|
  accepts_kwarg c k := bool_decide (k ∈ signature c);
  fit_error m X y :=
    if Nat.eqb (shape0 X) 0 then Some (ValueError "Found array with 0 sample(s)")
    else if Nat.eqb (shape0 X) (length y) then None
    else Some (ValueError "Found input variables with inconsistent numbers of samples");
  estimator_predict := sample_predict;
  estimator_predict_proba := sample_predict_proba;
  has_predict_proba _ := true;
  get_params := est_params;
  isoformat := pretty;
  strftime := pretty;
  total_seconds t1 t2 := Qc_of_Z (Z.of_nat t2 - Z.of_nat t1)
|}.

Definition X_sample : ndarray :=
  mkArray 3 2 [[Qc_of_Z 1; Qc_of_Z 0]; [Qc_of_Z 2; Qc_of_Z 1]; [Qc_of_Z 3; Qc_of_Z 1]].

Definition y_sample : list Z := [1; 2; 2]%Z.

(** A new trainer, and the same trainer after training a random forest
    on the sample. *)
Definition w_new : world Train.ModelTrainer :=
  mkWorld [] dirs 0 (Train.init "artifacts").

Definition w_trained : world Train.ModelTrainer :=
  snd (Train.train (ops := sample_estimators) X_sample y_sample "random_forest" ∅ w_new).


(** The metrics, over exact rationals. *)
Definition ratio (a b : nat) : Qc :=
  if Nat.eqb b 0 then Qc_of_Z 0
  else (Qc_of_Z (Z.of_nat a) / Qc_of_Z (Z.of_nat b))%Qc.

Definition labels_of (ys : list Z) : list Z := remove_dups (merge_sort Z.le ys).

Definition count_pairs (a b : Z) (yt yp : list Z) : nat :=
  length (List.filter (λ p, (Z.eqb (fst p) a && Z.eqb (snd p) b)%bool) (zip yt yp)).

Definition checked {A} (yt yp : list Z) (v : A) : outcome A :=
  if Nat.eqb (length yt) 0 then Raise (ValueError "Found empty input array")
  else if Nat.eqb (length yt) (length yp) then Ret v
  else Raise (ValueError "Found input variables with inconsistent numbers of samples").

Definition precision_of (yt yp : list Z) (c : Z) : Qc :=
  ratio (count_pairs c c yt yp) (count_label c yp).

Definition recall_of (yt yp : list Z) (c : Z) : Qc :=
  ratio (count_pairs c c yt yp) (count_label c yt).

Definition f1_of (yt yp : list Z) (c : Z) : Qc :=
  let p := precision_of yt yp c in
  let r := recall_of yt yp c in
  if Qeq_bool (p + r)%Qc 0 then Qc_of_Z 0
  else (Qc_of_Z 2 * p * r / (p + r))%Qc.

(** The average of a per-class score weighted by the class's support. *)
Definition weighted (score : Z → Qc) (yt yp : list Z) : Qc :=
  (qsum (map (λ c, Qc_of_Z (Z.of_nat (count_label c yt)) * score c)
          (labels_of (yt ++ yp)))
   / Qc_of_Z (Z.of_nat (length yt)))%Qc.

(** The area under the ROC curve for two classes: the share of pairs of
    a positive and a negative sample that the scores order rightly, a tie
    counting for a half. *)
Definition sample_roc_auc (yt : list Z) (scores : list Qc) : outcome Qc :=
  if negb (Nat.eqb (length yt) (length scores))
  then Raise (ValueError "Found input variables with inconsistent numbers of samples")
  else
    match labels_of yt with
    | [neg; pos] =>
        let ys := zip yt scores in
        let P := List.filter (λ p, Z.eqb (fst p) pos) ys in
        let N := List.filter (λ p, Z.eqb (fst p) neg) ys in
        let wins :=
          qsum (map (λ p : Z * Qc, qsum (map (λ n : Z * Qc, if Qeq_bool (snd n) (snd p)
                                          then (Qc_of_Z 1 / Qc_of_Z 2)%Qc
                                          else if Qle_bool (snd n) (snd p)
                                               then Qc_of_Z 1 else Qc_of_Z 0) N)) P) in
        Ret (wins / Qc_of_Z (Z.of_nat (length P * length N)))%Qc
    | _ => Raise (ValueError "Only one class present in y_true")
    end.

Definition sample_metrics : MetricOps := {|
  accuracy_score yt yp :=
    checked yt yp (ratio (length (List.filter (λ p, Z.eqb (fst p) (snd p)) (zip yt yp)))
                         (length yt));
  precision_score yt yp := checked yt yp (weighted (precision_of yt yp) yt yp);
  recall_score yt yp := checked yt yp (weighted (recall_of yt yp) yt yp);
  f1_score yt yp := checked yt yp (weighted (f1_of yt yp) yt yp);
  confusion_matrix yt yp :=
    checked yt yp (map (λ a, map (λ b, count_pairs a b yt yp) (labels_of (yt ++ yp)))
                       (labels_of (yt ++ yp)));
  roc_auc_score := sample_roc_auc
|}.

(** The example of the specification. *)
Definition y_true_example : list Z := [0; 1; 1; 0; 1]%Z.
Definition y_pred_example : list Z := [0; 1; 0; 0; 1]%Z.

(** A probability output with one column only. *)
Definition one_column : Evaluate.proba :=
  Evaluate.Matrix 1 [[Qc_of_Z 1]; [Qc_of_Z 1]; [Qc_of_Z 1]; [Qc_of_Z 1]; [Qc_of_Z 1]].

(** A probability output with two columns: column 0 holds the
    probability of class 0 and column 1 that of class 1. *)
Definition two_columns : Evaluate.proba :=
  Evaluate.Matrix 2
    [[(Qc_of_Z 9 / Qc_of_Z 10)%Qc; (Qc_of_Z 1 / Qc_of_Z 10)%Qc];
     [(Qc_of_Z 1 / Qc_of_Z 5)%Qc; (Qc_of_Z 4 / Qc_of_Z 5)%Qc];
     [(Qc_of_Z 7 / Qc_of_Z 10)%Qc; (Qc_of_Z 3 / Qc_of_Z 10)%Qc];
     [(Qc_of_Z 3 / Qc_of_Z 5)%Qc; (Qc_of_Z 2 / Qc_of_Z 5)%Qc];
     [(Qc_of_Z 1 / Qc_of_Z 10)%Qc; (Qc_of_Z 9 / Qc_of_Z 10)%Qc]].

(** A registry in which the default model is loaded, and a batch of two
    copies of one 54-element vector. *)
Definition X_54 : ndarray :=
  mkArray 2 54 [replicate 54 (Qc_of_Z 0); replicate 54 (Qc_of_Z 1)].

Definition rf_54 : Estimator :=
  mkEstimator RandomForestClassifier (Train.final_params "random_forest" ∅)
    (Some (X_54, [2; 2]%Z)).

Definition registry_with_default : Routes.registry :=
  [("random_forest", Train.mkTrainer "artifacts" (Some rf_54) None ∅)].

Definition batch_of_two : Routes.BatchPredictionRequest :=
  Routes.mkBatchPredictionRequest
    [replicate 54 (Qc_of_Z 0); replicate 54 (Qc_of_Z 0)].

(** The tables of the repository's tests. *)
Definition df_abc : DataFrame :=
  mkDataFrame 1 [("a", IntCol [1]%Z); ("b", IntCol [2]%Z); ("c", IntCol [3]%Z)].

Definition df_num_cat : DataFrame :=
  mkDataFrame 4
    [("num", FloatCol [Some (Qc_of_Z 1); Some (Qc_of_Z 2); None; Some (Qc_of_Z 4)]);
     ("cat", ObjCol [OStr "a"; ONone; OStr "b"; OStr "a"])].

Definition df_cat : DataFrame :=
  mkDataFrame 4 [("cat", ObjCol [OStr "a"; OStr "b"; OStr "a"; OStr "c"])].

Definition preprocessor (h : list DataFrame) : world Preprocessing.DataPreprocessing :=
  mkWorld h dirs 0 (Preprocessing.init "data/processed" "artifacts").

End Sample.

(* ===================================================================== *)
(** * Part II.  Properties                                                 *)
(* ===================================================================== *)


Module ValidationProps.
Import Validation.

Lemma validate_columns_run w data df l :
  heap w !! data = Some df →
  validate_columns data l w =
    (Ret (is_nil (missing_names df l)),
     with_report "missing_columns" (RNames (missing_names df l)) w).
Proof.
  intros Hd. unfold validate_columns, bind, deref. rewrite Hd.
  fold (missing_names df l). destruct (missing_names df l); reflexivity.
Qed.

Lemma validate_missing_values_run w data df thr :
  heap w !! data = Some df →
  validate_missing_values data thr w =
    (Ret (is_nil (high_missing df thr)),
     with_report "high_missing_columns" (RRatios (high_missing df thr)) w).
Proof.
  intros Hd. unfold validate_missing_values, bind, deref. rewrite Hd.
  fold (high_missing df thr). destruct (high_missing df thr); reflexivity.
Qed.

Lemma validate_data_types_run w data df et :
  heap w !! data = Some df →
  validate_data_types data et w =
    (Ret (is_nil (type_mismatches df et)),
     with_report "type_mismatches" (RMismatch (type_mismatches df et)) w).
Proof.
  intros Hd. unfold validate_data_types, bind, deref. rewrite Hd.
  destruct (type_mismatches df et); reflexivity.
Qed.

Lemma heap_with_report k v w : heap (with_report k v w) = heap w.
Proof. reflexivity. Qed.

Lemma validate_all_run w data df rc et thr :
  heap w !! data = Some df →
  validate_all data rc et thr w =
    (let '(c, m, t) := flags_of df rc et thr in
     let r := report_after df rc et thr (validation_report (self w)) in
     (Ret (mkResults c m t (all [c; m; t]) r),
      set_self (mkValidator (schema (self w)) r) w)).
Proof.
  intros Hd. unfold validate_all, flags_of, report_after.
  unfold bind at 1.
  destruct (truthy rc) eqn:Hrc.
  - rewrite (validate_columns_run _ _ df) by done.
    unfold bind at 1.
    rewrite (validate_missing_values_run _ _ df) by done.
    unfold bind at 1.
    destruct (truthy et) eqn:Het.
    + rewrite (validate_data_types_run _ _ df) by done. reflexivity.
    + reflexivity.
  - unfold ret at 1. unfold bind at 1.
    rewrite (validate_missing_values_run _ _ df) by done.
    unfold bind at 1.
    destruct (truthy et) eqn:Het.
    + rewrite (validate_data_types_run _ _ df) by done. reflexivity.
    + reflexivity.
Qed.

Lemma report_after_untouched df rc et thr old k :
  k ≠ "high_missing_columns" →
  (truthy rc = true → k ≠ "missing_columns") →
  (truthy et = true → k ≠ "type_mismatches") →
  report_after df rc et thr old !! k = old !! k.
Proof.
  intros Hm Hc Ht. unfold report_after.
  destruct (truthy et); destruct (truthy rc);
    repeat (rewrite lookup_insert_ne
              by (intros <-; first [by apply Hm | by apply Hc | by apply Ht]));
    reflexivity.
Qed.

(** C3.  For every dataset and every combination of optional arguments,
    [validate_all] returns a report whose [overall_valid] is the
    conjunction of the results of the requested checks: the column check
    counts with what [validate_columns] returns when [required_columns]
    is supplied and with [True] otherwise, likewise the type check with
    [expected_types]; a check that is not run leaves its entry of the
    validator's report as it was. *)
Theorem validate_all_overall_valid (w : world DataValidation) data df rc et thr :
  heap w !! data = Some df →
  ∃ rep w' bc bm bt,
    validate_all data rc et thr w = (Ret rep, w') ∧
    match rc with
    | Some l => returns (validate_columns data l) w bc
    | None => bc = true
    end ∧
    returns (validate_missing_values data thr) w bm ∧
    match et with
    | Some t => returns (validate_data_types data t) w bt
    | None => bt = true
    end ∧
    columns_valid rep = bc ∧ missing_valid rep = bm ∧ types_valid rep = bt ∧
    overall_valid rep = bc && bm && bt ∧
    (truthy rc = false →
       validation_report (self w') !! "missing_columns"
       = validation_report (self w) !! "missing_columns") ∧
    (truthy et = false →
       validation_report (self w') !! "type_mismatches"
       = validation_report (self w) !! "type_mismatches").
Proof.
  intros Hd. rewrite (validate_all_run w data df) by done.
  unfold flags_of, returns.
  eexists _, _, _, _, _. split; [reflexivity |].
  repeat split.
  - destruct rc as [[|c l]|]; simpl; try reflexivity.
    + by rewrite (validate_columns_run w data df).
    + by rewrite (validate_columns_run w data df).
  - by rewrite (validate_missing_values_run w data df).
  - destruct et as [[|c l]|]; simpl; try reflexivity.
    + by rewrite (validate_data_types_run w data df).
    + by rewrite (validate_data_types_run w data df).
  - simpl. unfold all. simpl. by rewrite andb_true_r, andb_assoc.
  - intros Hrc. simpl. apply report_after_untouched; [done | congruence | done].
  - intros Het. simpl. apply report_after_untouched; [done | done | congruence].
Qed.

Lemma validate_all_overall_valid_witness :
  ∃ rep w' bc bm bt,
    validate_all 0 (Some ["a"; "zip"]) (Some [("a", "int")]) (FNum (Qc_of_Z 1))
      (fresh [df_sample]) = (Ret rep, w') ∧
    match Some ["a"; "zip"] with
    | Some l => returns (validate_columns 0 l) (fresh [df_sample]) bc
    | None => bc = true
    end ∧
    returns (validate_missing_values 0 (FNum (Qc_of_Z 1))) (fresh [df_sample]) bm ∧
    match Some [("a", "int")] with
    | Some t => returns (validate_data_types 0 t) (fresh [df_sample]) bt
    | None => bt = true
    end ∧
    columns_valid rep = bc ∧ missing_valid rep = bm ∧ types_valid rep = bt ∧
    overall_valid rep = bc && bm && bt ∧
    (truthy (Some ["a"; "zip"]) = false →
       validation_report (self w') !! "missing_columns"
       = validation_report (self (fresh [df_sample])) !! "missing_columns") ∧
    (truthy (Some [("a", "int")]) = false →
       validation_report (self w') !! "type_mismatches"
       = validation_report (self (fresh [df_sample])) !! "type_mismatches").
Proof.
  apply (validate_all_overall_valid (fresh [df_sample]) 0 df_sample). reflexivity.
Defined.

(** C4, as the specification states it, fails: the report returned by
    [validate_all] carries the validator's accumulated
    [validation_report], so the same call on the same table returns
    different reports on a fresh validator and on one an earlier call
    left an entry in. *)
Lemma validate_all_report_depends_on_validator :
  heap (fresh [df_sample]) = heap (used [df_sample]) ∧
  fst (validate_all 0 None None (FNum (Qc_of_Z 1)) (fresh [df_sample]))
  ≠ fst (validate_all 0 None None (FNum (Qc_of_Z 1)) (used [df_sample])).
Proof.
  split; [reflexivity |].
  rewrite (validate_all_run _ 0 df_sample) by reflexivity.
  rewrite (validate_all_run _ 0 df_sample) by reflexivity.
  simpl. intros [=].
Qed.

(** C4, amended.  [validate_all] and each individual check leave the
    store of tables, the files and the clock as they were (the dataset is
    never mutated), and the four flags of the report are a function of
    the table and the arguments alone.  The [details] of the report are
    the validator's accumulated report: the entries of the checks run by
    this call, over whatever earlier calls left; so two calls with the
    same arguments return the same report whenever the two validators'
    reports agree on the entries this call does not write. *)
Theorem validate_all_pure_up_to_report
    (w1 w2 : world DataValidation) data df rc et thr :
  heap w1 !! data = Some df →
  heap w2 !! data = Some df →
  ∃ rep1 w1' rep2 w2',
    validate_all data rc et thr w1 = (Ret rep1, w1') ∧
    validate_all data rc et thr w2 = (Ret rep2, w2') ∧
    (heap w1' = heap w1 ∧ fs w1' = fs w1 ∧ clock w1' = clock w1) ∧
    (∀ l, heap (snd (validate_columns data l w1)) = heap w1) ∧
    (∀ t, heap (snd (validate_missing_values data t w1)) = heap w1) ∧
    (∀ t, heap (snd (validate_data_types data t w1)) = heap w1) ∧
    (columns_valid rep1, missing_valid rep1, types_valid rep1) = flags_of df rc et thr ∧
    overall_valid rep1 = overall_valid rep2 ∧
    columns_valid rep1 = columns_valid rep2 ∧
    missing_valid rep1 = missing_valid rep2 ∧
    types_valid rep1 = types_valid rep2 ∧
    details rep1 = report_after df rc et thr (validation_report (self w1)) ∧
    validation_report (self w1') = details rep1 ∧
    ((∀ k, k ≠ "high_missing_columns" →
           (truthy rc = true → k ≠ "missing_columns") →
           (truthy et = true → k ≠ "type_mismatches") →
           validation_report (self w1) !! k = validation_report (self w2) !! k) →
     rep1 = rep2).
Proof.
  intros H1 H2.
  rewrite (validate_all_run w1 data df), (validate_all_run w2 data df) by done.
  destruct (flags_of df rc et thr) as [[c m] t] eqn:Hf.
  eexists _, _, _, _. split; [reflexivity |]. split; [reflexivity |].
  repeat split; simpl.
  - intros l. by rewrite (validate_columns_run w1 data df).
  - intros t0. by rewrite (validate_missing_values_run w1 data df).
  - intros t0. by rewrite (validate_data_types_run w1 data df).
  - intros Hagree. f_equal. apply map_eq. intros k. unfold report_after.
    destruct (truthy et) eqn:Het, (truthy rc) eqn:Hrc;
      rewrite ?lookup_insert; repeat case_decide; try reflexivity;
      apply Hagree; congruence.
Qed.

Lemma validate_all_pure_up_to_report_witness :
  ∃ rep1 w1' rep2 w2',
    validate_all 0 (Some ["a"]) (Some [("a", "int")]) FNaN (fresh [df_sample])
      = (Ret rep1, w1') ∧
    validate_all 0 (Some ["a"]) (Some [("a", "int")]) FNaN (used [df_sample])
      = (Ret rep2, w2') ∧
    rep1 = rep2.
Proof.
  destruct (validate_all_pure_up_to_report (fresh [df_sample]) (used [df_sample])
              0 df_sample (Some ["a"]) (Some [("a", "int")]) FNaN
              eq_refl eq_refl)
    as (rep1 & w1' & rep2 & w2' & E1 & E2 & _ & _ & _ & _ & _ & _ & _ & _ & _ & _ & _ & Hsame).
  exists rep1, w1', rep2, w2'. split; [exact E1 |]. split; [exact E2 |].
  apply Hsame. intros k Hk Hc Ht.
  specialize (Hc eq_refl). specialize (Ht eq_refl).
  unfold used. rewrite (validate_all_run _ 0 df_sample) by reflexivity.
  simpl. rewrite report_after_untouched; [reflexivity | done | | done].
  intros _. exact Hc.
Defined.

(** C10.  On a table with no rows [validate_missing_values] does not
    fail: every ratio is 0/0, which pandas evaluates to NaN without
    raising, no NaN exceeds a threshold, so for every threshold the check
    returns [True] and records an empty set of offending columns. *)
Theorem validate_missing_values_no_rows (w : world DataValidation) data df thr :
  heap w !! data = Some df →
  df_rows df = 0 →
  wf_frame df = true →
  validate_missing_values data thr w =
    (Ret true, with_report "high_missing_columns" (RRatios []) w).
Proof.
  intros Hd Hrows Hwf.
  rewrite (validate_missing_values_run w data df) by done.
  assert (Hnil : high_missing df thr = []); [| by rewrite Hnil].
  unfold high_missing. unfold wf_frame in Hwf. rewrite Hrows in *.
  induction (df_columns df) as [| [name c] cols IH]; [reflexivity |].
  simpl in Hwf. apply andb_true_iff in Hwf as [Hc Hcols].
  apply Nat.eqb_eq in Hc. simpl.
  assert (Hz : isnull_sum c = 0).
  { destruct c as [xs | xs | xs]; simpl in *; [reflexivity | |];
      apply length_zero_iff_nil in Hc; by subst. }
  rewrite Hz. simpl. by apply IH.
Qed.

Lemma validate_missing_values_no_rows_witness :
  validate_missing_values 0 (FNum (Qc_of_Z 0)) (fresh [df_no_rows]) =
    (Ret true, with_report "high_missing_columns" (RRatios []) (fresh [df_no_rows])).
Proof.
  apply (validate_missing_values_no_rows (fresh [df_no_rows]) 0 df_no_rows);
    reflexivity.
Defined.

End ValidationProps.

(** ** Inversion of a run that returns *)

Lemma bind_ret_inv {S A B} (c : M S A) (k : A → M S B) s b s' :
  bind c k s = (Ret b, s') → ∃ a s1, c s = (Ret a, s1) ∧ k a s1 = (Ret b, s').
Proof.
  unfold bind. destruct (c s) as [[a | e] s1]; [eauto | discriminate].
Qed.

Lemma deref_ret_inv {Self} (r : ref) (w w' : world Self) df :
  deref r w = (Ret df, w') → heap w !! r = Some df ∧ w' = w.
Proof. unfold deref. destruct (heap w !! r); [by intros [= -> ->] | discriminate]. Qed.

Lemma lift_ret_inv {S A} (o : outcome A) (s s' : S) a :
  lift o s = (Ret a, s') → o = Ret a ∧ s' = s.
Proof. unfold lift. by intros [= -> ->]. Qed.

(** ** Components of the state a computation leaves alone *)

Section Stable.
Context {S X : Type} (f : S → X).

Lemma stable_ret {A} (a : A) : stable f (ret a).
Proof. by intros s. Qed.

Lemma stable_raise {A} e : stable f (raise (A:=A) e).
Proof. by intros s. Qed.

Lemma stable_lift {A} (o : outcome A) : stable f (lift o).
Proof. by intros s. Qed.

Lemma stable_get : stable f get.
Proof. by intros s. Qed.

Lemma stable_modify (g : S → S) : (∀ s, f (g s) = f s) → stable f (modify g).
Proof. intros Hg s. apply Hg. Qed.

Lemma stable_bind {A B} (c : M S A) (k : A → M S B) :
  stable f c → (∀ a, stable f (k a)) → stable f (bind c k).
Proof.
  intros Hc Hk s. unfold bind. specialize (Hc s).
  destruct (c s) as [[a | e] s1]; simpl in *; [by rewrite Hk | done].
Qed.

Lemma stable_try_except {A} (c : M S A) (h : exn → M S A) :
  stable f c → (∀ e, stable f (h e)) → stable f (try_except c h).
Proof.
  intros Hc Hh s. unfold try_except. specialize (Hc s).
  destruct (c s) as [[a | e] s1]; simpl in *; [done | by rewrite Hh].
Qed.

Lemma stable_if {A} (b : bool) (c1 c2 : M S A) :
  stable f c1 → stable f c2 → stable f (if b then c1 else c2).
Proof. by destruct b. Qed.

End Stable.

Lemma stable_deref {Self X} (f : world Self → X) r : stable f (deref r).
Proof. intros w. unfold deref. by destruct (heap w !! r). Qed.

Lemma stable_write_file {Self X} (f : world Self → X) path x :
  (∀ w files, f (set_fs files w) = f w) → stable f (write_file path x).
Proof.
  intros Hf w. unfold write_file. destruct (open_error (fs w) path); simpl; [done | apply Hf].
Qed.

(** One step of symbolic execution of a [stable] goal. *)
Ltac stable_step :=
  lazymatch goal with
  | |- stable _ (bind _ _) => apply stable_bind; [| intros ?]
  | |- stable _ (ret _) => apply stable_ret
  | |- stable _ (raise _) => apply stable_raise
  | |- stable _ (lift _) => apply stable_lift
  | |- stable _ get => apply stable_get
  | |- stable _ (deref _) => apply stable_deref
  | |- stable _ (modify _) => apply stable_modify; intros ?; reflexivity
  | |- stable _ (store _ _) => apply stable_modify; intros ?; reflexivity
  | |- stable _ (alloc _) => intros ?; reflexivity
  | |- stable _ (write_file _ _) => apply stable_write_file; intros ? ?; reflexivity
  | |- stable _ (try_except _ _) => apply stable_try_except; [| intros ?]
  | |- stable _ (if _ then _ else _) => apply stable_if
  | |- stable _ (match ?x with _ => _ end) => destruct x
  end.

(** ** Frame reasoning over the store *)

Section Keeps.
Context {Self : Type}.
Implicit Types (base : list DataFrame) (w : world Self).

Lemma keeps_ret {A} base (a : A) (Q : A → Prop) :
  Q a → keeps (Self:=Self) base (ret a) Q.
Proof. intros HQ w Hp. simpl. repeat split; [done | lia | by intros ? [= <-]]. Qed.

Lemma keeps_raise {A} base e (Q : A → Prop) : keeps (Self:=Self) base (raise e) Q.
Proof. intros w Hp. simpl. repeat split; [done | lia | discriminate]. Qed.

Lemma keeps_lift {A} base (o : outcome A) (Q : A → Prop) :
  (∀ a, Q a) → keeps (Self:=Self) base (lift o) Q.
Proof. intros HQ w Hp. simpl. repeat split; [done | lia | auto]. Qed.

Lemma keeps_get base (Q : world Self → Prop) :
  (∀ a, Q a) → keeps (Self:=Self) base get Q.
Proof. intros HQ w Hp. simpl. repeat split; [done | lia | auto]. Qed.

Lemma keeps_modify base (f : world Self → world Self) (Q : unit → Prop) :
  (∀ w, heap (f w) = heap w) → (∀ a, Q a) → keeps base (modify f) Q.
Proof.
  intros Hf HQ w Hp. simpl. rewrite Hf. repeat split; [done | lia | auto].
Qed.

Lemma keeps_deref base r (Q : DataFrame → Prop) :
  (∀ a, Q a) → keeps (Self:=Self) base (deref r) Q.
Proof.
  intros HQ w Hp. unfold deref. destruct (heap w !! r); simpl;
    repeat split; first [done | lia | auto].
Qed.

Lemma keeps_alloc base df (Q : ref → Prop) :
  (∀ a, length base ≤ a → Q a) → keeps (Self:=Self) base (alloc df) Q.
Proof.
  intros HQ w Hp. unfold alloc. simpl. repeat split.
  - by apply prefix_app_r.
  - rewrite length_app. lia.
  - intros a [= <-]. apply HQ. by apply prefix_length.
Qed.

Lemma keeps_store base r df (Q : unit → Prop) :
  length base ≤ r → (∀ a, Q a) → keeps (Self:=Self) base (store r df) Q.
Proof.
  intros Hr HQ w [k Hk]. unfold store, modify. simpl. repeat split.
  - exists (<[r - length base := df]> k). rewrite Hk. by apply insert_app_r_alt.
  - by rewrite length_insert.
  - auto.
Qed.

Lemma keeps_write_file base path f (Q : unit → Prop) :
  (∀ a, Q a) → keeps (Self:=Self) base (write_file path f) Q.
Proof.
  intros HQ w Hp. unfold write_file. destruct (open_error (fs w) path); simpl;
    repeat split; first [done | lia | auto].
Qed.

Lemma keeps_bind {A B} base (c : M (world Self) A) (k : A → M (world Self) B)
    (P : A → Prop) (Q : B → Prop) :
  keeps base c P → (∀ a, P a → keeps base (k a) Q) → keeps base (bind c k) Q.
Proof.
  intros Hc Hk w Hp. unfold bind.
  destruct (Hc w Hp) as (Hp' & Hlen & HP).
  destruct (c w) as [[a | e] w']; simpl in *.
  - destruct (Hk a (HP a eq_refl) w' Hp') as (Hp'' & Hlen' & HQ).
    repeat split; [done | lia | done].
  - repeat split; [done | lia | discriminate].
Qed.

Lemma keeps_weaken {A} base (c : M (world Self) A) (P Q : A → Prop) :
  keeps base c P → (∀ a, P a → Q a) → keeps base c Q.
Proof.
  intros Hc HPQ w Hp. destruct (Hc w Hp) as (? & ? & HP).
  repeat split; [done | done |]. intros a Ha. apply HPQ, HP, Ha.
Qed.

Lemma keeps_if {A} base (b : bool) (c1 c2 : M (world Self) A) (Q : A → Prop) :
  keeps base c1 Q → keeps base c2 Q → keeps base (if b then c1 else c2) Q.
Proof. by destruct b. Qed.

End Keeps.

Lemma bind_deref {Self A} (r : ref) (k : DataFrame → M (world Self) A) w df :
  heap w !! r = Some df → bind (deref r) k w = k df w.
Proof. intros H. unfold bind, deref. by rewrite H. Qed.

Lemma bind_alloc {Self A} df (k : ref → M (world Self) A) w :
  bind (alloc df) k w = k (length (heap w)) (set_heap (heap w ++ [df]) w).
Proof. reflexivity. Qed.

Lemma fresh_alloc_then {Self} base df (rest : ref → M (world Self) ref) :
  (∀ d, length base ≤ d → keeps base (rest d) (λ out, out = d)) →
  returns_fresh base (bind (alloc df) rest).
Proof.
  intros Hrest w Hp. rewrite bind_alloc.
  set (w1 := set_heap (heap w ++ [df]) w).
  assert (Hlen0 : length base ≤ length (heap w)) by (by apply prefix_length).
  destruct (Hrest (length (heap w)) Hlen0 w1) as (Hp' & Hlen & Hout).
  { by apply prefix_app_r. }
  subst w1. simpl in Hlen. rewrite length_app in Hlen. simpl in Hlen.
  split; [done |]. split; [lia |].
  intros out Ho. rewrite (Hout out Ho). lia.
Qed.

Lemma fresh_bind {Self A} base (c : M (world Self) A) (k : A → M (world Self) ref) :
  keeps base c (λ _, True) → (∀ a, returns_fresh base (k a)) →
  returns_fresh base (bind c k).
Proof.
  intros Hc Hk w Hp. unfold bind.
  destruct (Hc w Hp) as (Hp' & Hlen & _).
  destruct (c w) as [[a | e] w']; simpl in *.
  - destruct (Hk a w' Hp') as (Hp'' & Hlen' & Ho).
    split; [done |]. split; [lia | done].
  - split; [done |]. split; [lia | discriminate].
Qed.

(** A method that returns a fresh table and keeps the caller's objects
    leaves its input unchanged. *)
Lemma fresh_leaves_input {Self} (c : M (world Self) ref) w data df :
  heap w !! data = Some df →
  returns_fresh (heap w) c →
  leaves_input_unchanged c w data.
Proof.
  intros Hd Hc. destruct (Hc w) as (Hp & Hlen & Ho); [done |].
  assert (Hlt : data < length (heap w)) by (by eapply lookup_lt_Some).
  split; [done |]. split.
  - destruct Hp as [k Hk]. rewrite Hk. by apply lookup_app_l.
  - intros out Hout. destruct (Ho out Hout). split; [lia |]. split; [lia |].
    by apply lookup_lt_is_Some.
Qed.

(** One step of symbolic execution of a [keeps] goal. *)
Ltac keeps_step :=
  lazymatch goal with
  | |- keeps ?base (bind (alloc _) _) _ =>
      eapply keeps_bind with (P := λ a, length base ≤ a);
      [apply keeps_alloc; done | intros ? ?]
  | |- keeps _ (bind _ _) _ =>
      eapply keeps_bind with (P := λ _, True); [| intros ? _]
  | |- keeps _ (ret _) _ => apply keeps_ret; try done
  | |- keeps _ (raise _) _ => apply keeps_raise
  | |- keeps _ (lift _) _ => apply keeps_lift; done
  | |- keeps _ get _ => apply keeps_get; done
  | |- keeps _ (deref _) _ => apply keeps_deref; done
  | |- keeps _ (store _ _) _ => apply keeps_store; [first [done | lia] | done]
  | |- keeps _ (write_file _ _) _ => apply keeps_write_file; done
  | |- keeps _ (if _ then _ else _) _ => apply keeps_if
  | |- keeps _ (match ?x with _ => _ end) _ => destruct x
  end.

Module PreprocessingProps.
Import Preprocessing.

Section WithOps.
Context {ops : PreprocOps}.
Implicit Types (w : world DataPreprocessing) (base : list DataFrame).

Lemma keeps_set_scaler base s (Q : unit → Prop) :
  (∀ a, Q a) → keeps base (set_scaler s) Q.
Proof. intros HQ. by apply keeps_modify. Qed.

Lemma keeps_set_label_encoder base k le (Q : unit → Prop) :
  (∀ a, Q a) → keeps base (set_label_encoder k le) Q.
Proof. intros HQ. by apply keeps_modify. Qed.

Lemma keeps_assign_columns base data names values (Q : unit → Prop) :
  length base ≤ data → (∀ a, Q a) → keeps base (assign_columns data names values) Q.
Proof. intros Hr HQ. unfold assign_columns. repeat keeps_step. Qed.

Lemma keeps_scaler_fit_transform base X (Q : list column → Prop) :
  (∀ a, Q a) → keeps base (scaler_fit_transform X) Q.
Proof.
  intros HQ. unfold scaler_fit_transform.
  keeps_step; [by apply keeps_set_scaler |].
  keeps_step; [keeps_step |].
  keeps_step; [by apply keeps_set_scaler |].
  by apply keeps_lift.
Qed.

Lemma keeps_encode_loop base data cols (Q : unit → Prop) :
  length base ≤ data → (∀ a, Q a) → keeps base (encode_loop data cols) Q.
Proof.
  intros Hr HQ. induction cols as [| col rest IH]; simpl.
  - by apply keeps_ret.
  - keeps_step; [keeps_step |].
    keeps_step; [| exact IH].
    keeps_step; [| keeps_step].
    keeps_step; [keeps_step |].
    keeps_step; [keeps_step |].
    keeps_step; [keeps_step |].
    by apply keeps_set_label_encoder.
Qed.

(** C9.  [handle_missing_values], [encode_categorical] and
    [scale_features] each work on a copy: for every store, every table
    and every choice of the other arguments, the call leaves the caller's
    DataFrame (and every other object the caller holds) exactly as it
    was, whether it returns or raises, and what it returns is a reference
    to a new table. *)
Theorem preprocessing_steps_copy_their_input w data df :
  heap w !! data = Some df →
  (∀ numerical_strategy categorical_strategy,
     leaves_input_unchanged
       (handle_missing_values data numerical_strategy categorical_strategy) w data) ∧
  (∀ cols, leaves_input_unchanged (encode_categorical data cols) w data) ∧
  (∀ cols, leaves_input_unchanged (scale_features data cols) w data).
Proof.
  intros Hd. split; [| split].
  - intros ns cs. apply (fresh_leaves_input _ w data df Hd).
    unfold handle_missing_values.
    apply fresh_bind; [keeps_step | intros ?].
    apply fresh_bind; [apply keeps_alloc; done | intros d1].
    apply fresh_bind; [keeps_step | intros ?].
    apply fresh_alloc_then. intros d Hle.
    keeps_step; [keeps_step |].
    keeps_step.
    { keeps_step; [| keeps_step].
      keeps_step; [keeps_step |]. keeps_step; [keeps_step |].
      apply keeps_assign_columns; [lia | done]. }
    keeps_step; [keeps_step |].
    keeps_step.
    { keeps_step; [| keeps_step].
      keeps_step; [keeps_step |]. keeps_step; [keeps_step |].
      apply keeps_assign_columns; [lia | done]. }
    keeps_step.
  - intros cols. apply (fresh_leaves_input _ w data df Hd).
    unfold encode_categorical.
    apply fresh_bind; [keeps_step | intros ?].
    apply fresh_alloc_then. intros d Hle.
    keeps_step; [keeps_step |].
    keeps_step; [apply keeps_encode_loop; [lia | done] |].
    keeps_step.
  - intros cols. apply (fresh_leaves_input _ w data df Hd).
    unfold scale_features.
    apply fresh_bind; [keeps_step | intros ?].
    apply fresh_alloc_then. intros d Hle.
    keeps_step; [keeps_step |].
    keeps_step.
    { keeps_step; [| keeps_step].
      keeps_step; [keeps_step |].
      keeps_step; [apply keeps_scaler_fit_transform; done |].
      apply keeps_assign_columns; [lia | done]. }
    keeps_step.
Qed.

Lemma stable_assign_columns data names values :
  stable self (assign_columns data names values).
Proof. unfold assign_columns. repeat stable_step. Qed.

(** [transform] reads the scaler and writes only the table. *)
Lemma stable_scale_test feature_cols X_test : stable self (scale_test feature_cols X_test).
Proof.
  unfold scale_test.
  stable_step; [stable_step |].
  stable_step; [stable_step |].
  stable_step; [| apply stable_assign_columns].
  unfold scaler_transform. stable_step; [stable_step |].
  repeat stable_step.
Qed.

Lemma stable_persist X_train X_test target y_train y_test :
  stable self (persist X_train X_test target y_train y_test).
Proof. unfold persist, save_preprocessors, to_csv. repeat stable_step. Qed.

Lemma scaler_fit_transform_inv X w scaled w' :
  scaler_fit_transform X w = (Ret scaled, w') →
  ∃ st, scaler_fit X = Ret st ∧ scaler_apply st X = Ret scaled ∧
        scaler (self w') = mkScaler (Some st) ∧ heap w' = heap w.
Proof.
  unfold scaler_fit_transform. intros H.
  apply bind_ret_inv in H as ([] & w1 & H1 & H). injection H1 as <-.
  apply bind_ret_inv in H as (st & w2 & H2 & H).
  apply lift_ret_inv in H2 as [Hfit ->].
  apply bind_ret_inv in H as ([] & w3 & H3 & H). injection H3 as <-.
  apply lift_ret_inv in H as [Happly ->].
  by exists st.
Qed.

Lemma scale_train_inv X_train w fc w' :
  scale_train X_train w = (Ret fc, w') →
  ∃ df X st,
    heap w !! X_train = Some df ∧ fc = columns df ∧
    getitems fc df = Ret X ∧ scaler_fit X = Ret st ∧
    scaler (self w') = mkScaler (Some st).
Proof.
  unfold scale_train. intros H.
  apply bind_ret_inv in H as (df & w1 & H1 & H).
  apply deref_ret_inv in H1 as [Hdf ->].
  apply bind_ret_inv in H as (X & w2 & H2 & H).
  apply lift_ret_inv in H2 as [HX ->].
  apply bind_ret_inv in H as (scaled & w3 & H3 & H).
  apply scaler_fit_transform_inv in H3 as (st & Hfit & _ & Hst & _).
  apply bind_ret_inv in H as ([] & w4 & H4 & H).
  injection H as <- <-.
  exists df, X, st. repeat split; try done.
  pose proof (stable_assign_columns X_train (columns df) scaled w3) as Hs.
  rewrite H4 in Hs. simpl in Hs. by rewrite Hs.
Qed.

Lemma scale_test_inv fc X_test w u w' :
  scale_test fc X_test w = (Ret u, w') →
  ∃ df X st scaled,
    heap w !! X_test = Some df ∧ getitems fc df = Ret X ∧
    scaler (self w) = mkScaler (Some st) ∧ scaler_apply st X = Ret scaled.
Proof.
  unfold scale_test. intros H.
  apply bind_ret_inv in H as (df & w1 & H1 & H).
  apply deref_ret_inv in H1 as [Hdf ->].
  apply bind_ret_inv in H as (X & w2 & H2 & H).
  apply lift_ret_inv in H2 as [HX ->].
  apply bind_ret_inv in H as (scaled & w3 & H3 & _).
  unfold scaler_transform in H3.
  apply bind_ret_inv in H3 as (w0 & w4 & H4 & H3). injection H4 as <- <-.
  destruct (scaler (self w)) as [[st |]] eqn:Hsc; simpl in H3; [| discriminate].
  apply lift_ret_inv in H3 as [Happly _].
  by exists df, X, st, scaled.
Qed.

Lemma assign_columns_inv (d : ref) names values w w' u :
  assign_columns d names values w = (Ret u, w') →
  ∃ df df', heap w !! d = Some df ∧ setitems names values df = Ret df' ∧
            w' = set_heap (<[d := df']> (heap w)) w.
Proof.
  unfold assign_columns. intros H.
  apply bind_ret_inv in H as (df & w1 & H1 & H).
  apply deref_ret_inv in H1 as [Hdf ->].
  apply bind_ret_inv in H as (df' & w2 & H2 & H).
  apply lift_ret_inv in H2 as [Hset ->].
  unfold store, modify in H. injection H as <-.
  by exists df, df'.
Qed.

(** What scaling the train partition does to the store. *)
Lemma scale_train_store X_train w fc w' :
  scale_train X_train w = (Ret fc, w') →
  ∃ df X st scaled df',
    heap w !! X_train = Some df ∧ fc = columns df ∧
    getitems fc df = Ret X ∧ scaler_fit X = Ret st ∧
    scaler_apply st X = Ret scaled ∧
    setitems fc scaled df = Ret df' ∧
    heap w' = <[X_train := df']> (heap w).
Proof.
  unfold scale_train. intros H.
  apply bind_ret_inv in H as (df & w1 & H1 & H).
  apply deref_ret_inv in H1 as [Hdf ->].
  apply bind_ret_inv in H as (X & w2 & H2 & H).
  apply lift_ret_inv in H2 as [HX ->].
  apply bind_ret_inv in H as (scaled & w3 & H3 & H).
  apply scaler_fit_transform_inv in H3 as (st & Hfit & Happly & _ & Hheap).
  apply bind_ret_inv in H as ([] & w4 & H4 & H).
  injection H as <- <-.
  apply assign_columns_inv in H4 as (df0 & df' & Hdf0 & Hset & ->).
  rewrite Hheap, Hdf in Hdf0. injection Hdf0 as <-.
  exists df, X, st, scaled, df'. simpl. by rewrite Hheap.
Qed.

(** What transforming the test partition does to the store. *)
Lemma scale_test_store fc X_test w u w' :
  scale_test fc X_test w = (Ret u, w') →
  ∃ df X st scaled df',
    heap w !! X_test = Some df ∧ getitems fc df = Ret X ∧
    scaler (self w) = mkScaler (Some st) ∧ scaler_apply st X = Ret scaled ∧
    setitems fc scaled df = Ret df' ∧
    heap w' = <[X_test := df']> (heap w).
Proof.
  unfold scale_test. intros H.
  apply bind_ret_inv in H as (df & w1 & H1 & H).
  apply deref_ret_inv in H1 as [Hdf ->].
  apply bind_ret_inv in H as (X & w2 & H2 & H).
  apply lift_ret_inv in H2 as [HX ->].
  apply bind_ret_inv in H as (scaled & w3 & H3 & H).
  unfold scaler_transform in H3.
  apply bind_ret_inv in H3 as (w0 & w4 & H4 & H3). injection H4 as <- <-.
  destruct (scaler (self w)) as [[st |]] eqn:Hsc; simpl in H3; [| discriminate].
  apply lift_ret_inv in H3 as [Happly ->].
  apply assign_columns_inv in H as (df0 & df' & Hdf0 & Hset & ->).
  rewrite Hdf in Hdf0. injection Hdf0 as <-.
  by exists df, X, st, scaled, df'.
Qed.

(** The two partitions [split_data] returns are two different objects
    of the store. *)
Lemma split_data_refs data target_column test_size random_state w w'
    X_train X_test y_train y_test :
  split_data data target_column test_size random_state w
    = (Ret (X_train, X_test, y_train, y_test), w') →
  X_train ≠ X_test ∧ X_train < length (heap w') ∧ X_test < length (heap w').
Proof.
  unfold split_data. intros H.
  apply bind_ret_inv in H as (df & w1 & H1 & H).
  apply deref_ret_inv in H1 as [_ ->].
  apply bind_ret_inv in H as (Xdf & w2 & H2 & H).
  apply lift_ret_inv in H2 as [_ ->].
  rewrite bind_alloc in H.
  apply bind_ret_inv in H as (y & w3 & H3 & H).
  apply lift_ret_inv in H3 as [_ ->].
  apply bind_ret_inv in H as (idx & w4 & H4 & H).
  apply lift_ret_inv in H4 as [_ ->].
  apply bind_ret_inv in H as (train & w5 & H5 & H).
  apply lift_ret_inv in H5 as [_ ->].
  apply bind_ret_inv in H as (test & w6 & H6 & H).
  apply lift_ret_inv in H6 as [_ ->].
  rewrite bind_alloc in H. cbn [heap set_heap] in H. rewrite bind_alloc in H.
  cbn [heap set_heap] in H. injection H as <- <- _ _ <-.
  cbn [heap set_heap]. rewrite !length_app. simpl. lia.
Qed.

Lemma pipeline_split_refs data target_column test_size w w'
    X_train X_test y_train y_test :
  pipeline_split data target_column test_size w
    = (Ret (X_train, X_test, y_train, y_test), w') →
  X_train ≠ X_test ∧ X_train < length (heap w') ∧ X_test < length (heap w').
Proof.
  unfold pipeline_split. intros H.
  apply bind_ret_inv in H as (d1 & w1 & _ & H).
  apply bind_ret_inv in H as (df1 & w2 & _ & H).
  apply bind_ret_inv in H as (d2 & w3 & _ & H).
  apply bind_ret_inv in H as (df2 & w4 & _ & H).
  apply bind_ret_inv in H as (target & w5 & _ & H).
  apply bind_ret_inv in H as (u & w6 & _ & H).
  by eapply split_data_refs.
Qed.

Lemma stable_store_persist X_train X_test target y_train y_test :
  stable heap (persist X_train X_test target y_train y_test).
Proof. unfold persist, save_preprocessors, to_csv. repeat stable_step. Qed.

(** C2.  The scaler is fitted on the train partition alone and the test
    partition is transformed with that fit.  Transforming the test
    partition never touches the preprocessor: the fitted mean, variance
    and scale are the same before and after it, for every store and every
    table, whether the transformation returns or raises.  And whenever
    [preprocess_pipeline] returns, the statistics the scaler holds at the
    end (and held right after the train partition was scaled) are those
    [StandardScaler.fit] computes from the train features of the split,
    and they are the ones both partitions were transformed with: the
    train table the pipeline returns is the train partition of the split
    with its feature columns set to the transform of its own features,
    and the test table it returns is the test partition of the split
    with its feature columns set to the transform of the test features
    with the statistics of the train features. *)
Theorem scaler_is_fitted_on_train_only w data target_column test_size :
  (∀ w1 feature_cols X_test,
     self (snd (scale_test feature_cols X_test w1)) = self w1) ∧
  (∀ res w',
     preprocess_pipeline data target_column test_size w = (Ret res, w') →
     ∃ w_s X_train X_test y_train y_test train_df X st w_t test_df Xt scaled,
       pipeline_split data target_column test_size w
         = (Ret (X_train, X_test, y_train, y_test), w_s) ∧
       res = (X_train, X_test, y_train, y_test) ∧
       heap w_s !! X_train = Some train_df ∧
       getitems (columns train_df) train_df = Ret X ∧
       scaler_fit X = Ret st ∧
       scale_train X_train w_s = (Ret (columns train_df), w_t) ∧
       scaler (self w_t) = mkScaler (Some st) ∧
       heap w_t !! X_test = Some test_df ∧
       getitems (columns train_df) test_df = Ret Xt ∧
       scaler_apply st Xt = Ret scaled ∧
       scaler (self (snd (scale_test (columns train_df) X_test w_t)))
         = mkScaler (Some st) ∧
       scaler (self w') = mkScaler (Some st) ∧
       X_train ≠ X_test ∧
       heap w_s !! X_test = Some test_df ∧
       ∃ scaled_train train_out test_out,
         scaler_apply st X = Ret scaled_train ∧
         setitems (columns train_df) scaled_train train_df = Ret train_out ∧
         heap w' !! X_train = Some train_out ∧
         setitems (columns train_df) scaled test_df = Ret test_out ∧
         heap w' !! X_test = Some test_out).
Proof.
  split.
  - intros w1 fc X_test. apply stable_scale_test.
  - intros res w' H. unfold preprocess_pipeline in H.
    apply bind_ret_inv in H as ([[[X_train X_test] y_train] y_test] & w_s & Hsplit & H).
    apply bind_ret_inv in H as (fc & w_t & Htrain & H).
    apply bind_ret_inv in H as ([] & w_u & Htest & H).
    apply bind_ret_inv in H as ([] & w_p & Hpersist & H).
    injection H as <- <-.
    pose proof (scale_train_inv _ _ _ _ Htrain) as (train_df & X & st & Hdf & -> & HX & Hfit & Hst).
    pose proof (scale_test_inv _ _ _ _ _ Htest) as (test_df & Xt & st' & scaled & Htdf & HXt & Hst' & Happly).
    rewrite Hst in Hst'. injection Hst' as <-.
    pose proof (stable_scale_test (columns train_df) X_test w_t) as Hu.
    pose proof (stable_persist X_train X_test target_column y_train y_test w_u) as Hp.
    rewrite Hpersist in Hp. simpl in Hp.
    pose proof (pipeline_split_refs _ _ _ _ _ _ _ _ _ Hsplit) as (Hne & Hlt1 & Hlt2).
    pose proof (scale_train_store _ _ _ _ Htrain)
      as (df1 & X1 & st1 & scaled_train & train_out & Hdf1 & _ & HX1 & Hfit1 & Happly1
          & Hset1 & Hheap_t).
    rewrite Hdf in Hdf1. injection Hdf1 as <-.
    rewrite HX in HX1. injection HX1 as <-.
    rewrite Hfit in Hfit1. injection Hfit1 as <-.
    pose proof (scale_test_store _ _ _ _ _ Htest)
      as (df2 & X2 & st2 & scaled2 & test_out & Hdf2 & HX2 & Hst2 & Happly2 & Hset2 & Hheap_u).
    rewrite Htdf in Hdf2. injection Hdf2 as <-.
    rewrite HXt in HX2. injection HX2 as <-.
    rewrite Hst in Hst2. injection Hst2 as <-.
    rewrite Happly in Happly2. injection Happly2 as <-.
    pose proof (stable_store_persist X_train X_test target_column y_train y_test w_u) as Hph.
    rewrite Hpersist in Hph. simpl in Hph.
    exists w_s, X_train, X_test, y_train, y_test, train_df, X, st, w_t, test_df, Xt, scaled.
    repeat (split; [done |]).
    split; [by rewrite Hu |].
    split; [rewrite Hp; rewrite Htest in Hu; simpl in Hu; by rewrite Hu |].
    split; [done |].
    split.
    { rewrite Hheap_t in Htdf. by rewrite list_lookup_insert_ne in Htdf. }
    exists scaled_train, train_out, test_out.
    split; [done |]. split; [done |].
    split.
    { rewrite Hph, Hheap_u, Hheap_t.
      rewrite list_lookup_insert_ne by done. apply list_lookup_insert_eq. done. }
    split; [done |].
    rewrite Hph, Hheap_u. apply list_lookup_insert_eq.
    by rewrite Hheap_t, length_insert.
Qed.

End WithOps.

(** On the sample table the pipeline returns.  The train partition has
    the rows [num = 2, 3, 6] and [cat = 0, 1, 0], so the fit has the means
    11/3 and 1/3; the one test row [num = 1], [cat = 0] comes back
    transformed with those statistics, as [-12/13] and [-3/2], and not
    with statistics of its own. *)
Lemma scaler_is_fitted_on_train_only_witness :
  ∃ X_train X_test y_train y_test w' st a b,
    preprocess_pipeline (ops := Sample.sample_ops) 0 "y"
      (FNum (Qc_of_Z 1 / Qc_of_Z 4)%Qc) Sample.w_mixed
      = (Ret (X_train, X_test, y_train, y_test), w') ∧
    scaler (self w') = mkScaler (Some st) ∧
    Qcanon.this <$> mean_ st = [(11 # 3)%Q; (1 # 3)%Q] ∧
    heap w' !! X_test
      = Some (mkDataFrame 1 [("num", FloatCol [Some a]); ("cat", FloatCol [Some b])]) ∧
    Qcanon.this a = (-12 # 13)%Q ∧ Qcanon.this b = (-3 # 2)%Q.
Proof.
  destruct (scaler_is_fitted_on_train_only (ops := Sample.sample_ops)
              Sample.w_mixed 0 "y" (FNum (Qc_of_Z 1 / Qc_of_Z 4)%Qc)) as [_ Hfit].
  destruct (Hfit (5, 6, IntCol [1; 1; 0]%Z, IntCol [0%Z])
              (snd (preprocess_pipeline (ops := Sample.sample_ops) 0 "y"
                      (FNum (Qc_of_Z 1 / Qc_of_Z 4)%Qc) Sample.w_mixed)))
    as (w_s & X_train & X_test & y_train & y_test & train_df & X & st & w_t
        & test_df & Xt & scaled & _ & Hres & _ & _ & _ & _ & _ & _ & _ & _ & _
        & Hend & _ & _ & scaled_train & train_out & test_out & _ & _ & _ & _ & Hout);
    [vm_compute; reflexivity |].
  injection Hres as <- <- <- <-.
  pose proof Hend as Hst. vm_compute in Hst. injection Hst as Hst.
  pose proof Hout as Hdf. vm_compute in Hdf. injection Hdf as Hdf.
  rewrite <- Hdf in Hout. rewrite <- Hst in Hend.
  eexists 5, 6, (IntCol [1; 1; 0]%Z), (IntCol [0%Z]),
    (snd (preprocess_pipeline (ops := Sample.sample_ops) 0 "y"
            (FNum (Qc_of_Z 1 / Qc_of_Z 4)%Qc) Sample.w_mixed)), _, _, _.
  split; [vm_compute; reflexivity |].
  split; [exact Hend |].
  split; [reflexivity |].
  split; [exact Hout |].
  split; reflexivity.
Defined.

Lemma preprocessing_steps_copy_their_input_witness :
  (∀ numerical_strategy categorical_strategy,
     leaves_input_unchanged
       (handle_missing_values (ops := Sample.sample_ops) 0
          numerical_strategy categorical_strategy) Sample.w_mixed 0) ∧
  (∀ cols, leaves_input_unchanged
             (encode_categorical (ops := Sample.sample_ops) 0 cols) Sample.w_mixed 0) ∧
  (∀ cols, leaves_input_unchanged
             (scale_features (ops := Sample.sample_ops) 0 cols) Sample.w_mixed 0).
Proof.
  apply (preprocessing_steps_copy_their_input (ops := Sample.sample_ops)
           Sample.w_mixed 0 Sample.df_mixed).
  reflexivity.
Defined.

End PreprocessingProps.

(** ** Strings and dictionaries *)

Lemma str_in_app_r (n p t : string) : str_in n t = true → str_in n (p +:+ t) = true.
Proof.
  intros H. induction p as [| c p IH]; simpl; [done |].
  rewrite IH. apply orb_true_r.
Qed.

Lemma lookup_list_to_map_assoc {A} (l : list (string * A)) (k : string) :
  (list_to_map l : gmap string A) !! k = assoc k l.
Proof.
  induction l as [| [k' v] l IH]; simpl; [apply lookup_empty |].
  rewrite lookup_insert. destruct (String.eqb_spec k k') as [-> | Hne].
  - by rewrite decide_True.
  - by rewrite decide_False.
Qed.

Module TrainProps.
Import Train.

Section WithOps.
Context {ops : EstimatorOps}.

Lemma assoc_unsupported (name : string) :
  name ∉ map fst supported_models → assoc name MODELS = None.
Proof.
  intros Hn. simpl in Hn. unfold MODELS. simpl.
  repeat match goal with
         | |- context [String.eqb name ?s] =>
             destruct (String.eqb_spec name s) as [-> | _];
             [exfalso; apply Hn; set_solver |]
         end.
  reflexivity.
Qed.

Lemma assoc_supported (name : string) (cls : ModelClass) :
  (name, cls) ∈ supported_models → assoc name MODELS = Some cls.
Proof.
  unfold supported_models. rewrite !elem_of_cons, elem_of_nil.
  intros [[= -> ->] | [[= -> ->] | [[= -> ->] | [[= -> ->] | []]]]]; reflexivity.
Qed.

Lemma message_names_valid_types (name n : string) :
  n ∈ map fst supported_models → str_in n (unknown_model_message name) = true.
Proof.
  intros Hn. unfold unknown_model_message.
  apply str_in_app_r, str_in_app_r, str_in_app_r.
  simpl in Hn. rewrite !elem_of_cons, elem_of_nil in Hn.
  destruct Hn as [-> | [-> | [-> | [-> | []]]]]; reflexivity.
Qed.

Lemma train_unknown w X y name params :
  assoc name MODELS = None →
  train X y name params w =
    (Raise (ValueError (unknown_model_message name)),
     set_self (mkTrainer (artifacts_path (self w)) (model (self w))
                 (Some name) (training_info (self w))) w).
Proof.
  intros Hn. unfold train, bind, set_model_name, modify, lift, get_model.
  by rewrite Hn.
Qed.

(** C5.  A model-type name outside {random_forest, logistic_regression,
    decision_tree, gradient_boosting} is refused: [get_model] raises a
    [ValueError] whose message contains each of the four valid names, and
    [train] raises the same error before any model is constructed or
    fitted (the trainer's [model] and [training_info] are what they were
    and the clock was not read).  For a name inside the set [get_model]
    calls the constructor of the corresponding classifier, and returns
    the new, unfitted classifier whenever scikit-learn accepts the
    keyword arguments. *)
Theorem unknown_model_refused_known_constructed (name : string) (params : gmap string hval) :
  (name ∉ map fst supported_models →
     get_model name params = Raise (ValueError (unknown_model_message name)) ∧
     (∀ n, n ∈ map fst supported_models →
           str_in n (unknown_model_message name) = true) ∧
     (∀ w X y,
        fst (train X y name params w) = Raise (ValueError (unknown_model_message name)) ∧
        model (self (snd (train X y name params w))) = model (self w) ∧
        training_info (self (snd (train X y name params w))) = training_info (self w) ∧
        clock (snd (train X y name params w)) = clock w)) ∧
  (∀ cls, (name, cls) ∈ supported_models →
     get_model name params = construct cls (final_params name params) ∧
     (map_Forall (λ k _, accepts_kwarg cls k = true) (final_params name params) →
      get_model name params = Ret (mkEstimator cls (final_params name params) None))).
Proof.
  split.
  - intros Hn. pose proof (assoc_unsupported name Hn) as Ha.
    split; [| split].
    + unfold get_model. by rewrite Ha.
    + intros n. apply message_names_valid_types.
    + intros w X y. by rewrite train_unknown.
  - intros cls Hc. pose proof (assoc_supported name cls Hc) as Ha.
    assert (Hg : get_model name params = construct cls (final_params name params))
      by (unfold get_model; by rewrite Ha).
    split; [exact Hg |].
    intros Hok. rewrite Hg. unfold construct. by rewrite bool_decide_eq_true_2.
Qed.

(** C6.  For a supported model type and any hyperparameters of the
    caller, the dictionary the constructor is called with is the named
    defaults of that type overridden by name with the caller's values:
    every name the caller gives has the caller's value, every other name
    has its documented default (100 estimators, seed 42, 1000
    iterations), and no other name is present.  The classifier that is
    returned holds exactly these parameters. *)
Theorem hyperparameters_are_defaults_overridden
    (name : string) (cls : ModelClass) (params : gmap string hval) :
  (name, cls) ∈ supported_models →
  get_model name params = construct cls (final_params name params) ∧
  (∀ m, get_model name params = Ret m →
        est_class m = cls ∧ est_params m = final_params name params) ∧
  (∀ k, final_params name params !! k =
          match params !! k with
          | Some v => Some v
          | None => assoc k (documented_defaults name)
          end).
Proof.
  intros Hc. pose proof (assoc_supported name cls Hc) as Ha.
  assert (Hg : get_model name params = construct cls (final_params name params))
    by (unfold get_model; by rewrite Ha).
  split; [exact Hg |]. split.
  - intros m. rewrite Hg. unfold construct. case_bool_decide; [| discriminate].
    by intros [= <-].
  - intros k. unfold final_params. rewrite lookup_union.
    destruct (params !! k) as [v |] eqn:Hk.
    + by destruct (default ∅ (default_params !! name) !! k).
    + rewrite (left_id None _).
      unfold supported_models in Hc. rewrite !elem_of_cons, elem_of_nil in Hc.
      destruct Hc as [[= -> ->] | [[= -> ->] | [[= -> ->] | [[= -> ->] | []]]]];
        (etransitivity; [| apply lookup_list_to_map_assoc]); reflexivity.
Qed.



End WithOps.

Lemma unknown_model_refused_known_constructed_witness :
  get_model (ops := Sample.sample_estimators) "svm" ∅
    = Raise (ValueError (unknown_model_message "svm")) ∧
  get_model (ops := Sample.sample_estimators) "random_forest" ∅
    = Ret (mkEstimator RandomForestClassifier (final_params "random_forest" ∅) None).
Proof.
  split.
  - apply (unknown_model_refused_known_constructed (ops := Sample.sample_estimators) "svm" ∅).
    vm_compute. intros H. by repeat (apply elem_of_cons in H as [H | H]; [discriminate |]);
      apply elem_of_nil in H.
  - apply (unknown_model_refused_known_constructed (ops := Sample.sample_estimators)
             "random_forest" ∅).
    + set_solver.
    + apply (bool_decide_unpack _). vm_compute. exact I.
Defined.

Lemma hyperparameters_are_defaults_overridden_witness :
  final_params "logistic_regression" {["max_iter" := HInt 200]} !! "max_iter"
    = Some (HInt 200) ∧
  final_params "logistic_regression" {["max_iter" := HInt 200]} !! "random_state"
    = Some (HInt 42) ∧
  final_params "logistic_regression" {["max_iter" := HInt 200]} !! "n_estimators"
    = None.
Proof.
  destruct (hyperparameters_are_defaults_overridden (ops := Sample.sample_estimators)
              "logistic_regression" LogisticRegression {["max_iter" := HInt 200]})
    as (_ & _ & H); [set_solver |].
  split; [| split]; (etransitivity; [apply H |]); reflexivity.
Defined.


End TrainProps.


Module EvaluateProps.
Import Evaluate.

Section WithOps.
Context {ops : MetricOps}.

(** Column 1 of a two-dimensional array whose rows all have one. *)
Lemma column_1_rows (ncols : nat) (rows : list (list Qc)) (col : list Qc) :
  1 < ncols →
  Forall2 (λ r x, r !! 1 = Some x) rows col →
  column_1 (Matrix ncols rows) = Ret col.
Proof.
  intros Hn Hrows. unfold column_1.
  destruct (Nat.ltb_spec 1 ncols) as [_ | ?]; [| lia].
  induction Hrows as [| r x rows col Hr _ IH]; simpl; [done |].
  by rewrite Hr, IH.
Qed.

(** Column 1 of an array that has a row without one cannot be taken. *)
Lemma column_1_missing (ncols : nat) (rows : list (list Qc)) :
  ncols ≤ 1 ∨ Exists (λ r, r !! 1 = None) rows →
  ∃ e, column_1 (Matrix ncols rows) = Raise e.
Proof.
  intros H. unfold column_1.
  destruct (Nat.ltb_spec 1 ncols) as [Hn |]; [| by eexists].
  destruct H as [? | H]; [lia |].
  induction H as [r rows Hr | r rows _ IH]; simpl.
  - rewrite Hr. by eexists.
  - destruct (r !! 1); simpl; [| by eexists].
    destruct IH as [e ->]. by eexists.
Qed.

(** The run of [calculate_metrics] once the five metrics that are always
    computed have returned. *)
Lemma calculate_metrics_returns
    (ev : ModelEvaluator) (y_true y_pred : list Z) (y_proba : option proba)
    (acc prec rec f1 : Qc) (cm : list (list nat)) :
  accuracy_score y_true y_pred = Ret acc →
  precision_score y_true y_pred = Ret prec →
  recall_score y_true y_pred = Ret rec →
  f1_score y_true y_pred = Ret f1 →
  confusion_matrix y_true y_pred = Ret cm →
  ∃ m ev',
    calculate_metrics y_true y_pred y_proba ev = (Ret m, ev') ∧
    metrics ev' = m ∧
    m !! "accuracy" = Some (MFloat acc) ∧
    m !! "precision" = Some (MFloat prec) ∧
    m !! "recall" = Some (MFloat rec) ∧
    m !! "f1_score" = Some (MFloat f1) ∧
    m !! "confusion_matrix" = Some (MMatrix cm) ∧
    m !! "roc_auc" =
      match y_proba with
      | Some p =>
          if Nat.eqb (length (remove_dups y_true)) 2 then
            match obind (positive_scores p) (roc_auc_score y_true) with
            | Ret auc => Some (MFloat auc)
            | Raise _ => Some MNull
            end
          else None
      | None => None
      end.
Proof.
  intros Hacc Hprec Hrec Hf1 Hcm.
  unfold calculate_metrics, bind, lift, set_metrics, modify, try_except, get, ret.
  rewrite Hacc, Hprec, Hrec, Hf1, Hcm. cbn [fst snd].
  destruct y_proba as [p |]; [destruct (Nat.eqb (length (remove_dups y_true)) 2) |].
  - destruct (positive_scores p) as [scores | e]; cbn [obind metrics_set modify];
      [destruct (roc_auc_score y_true scores) as [auc | e] |];
      eexists _, _; (split; [reflexivity |]); (split; [reflexivity |]);
      cbn [metrics];
      rewrite !(lookup_insert_ne _ "roc_auc") by done;
      rewrite lookup_insert_eq, !lookup_list_to_map_assoc; by repeat split.
  - eexists _, _. split; [reflexivity |]. split; [reflexivity |].
    cbn [metrics]. rewrite !lookup_list_to_map_assoc. by repeat split.
  - eexists _, _. split; [reflexivity |]. split; [reflexivity |].
    cbn [metrics]. rewrite !lookup_list_to_map_assoc. by repeat split.
Qed.

(** C8.  Once the five metrics that are always computed have returned,
    [calculate_metrics] returns, whatever happens in the ROC-AUC step:
    the result holds the accuracy, precision, recall, F1 score and
    confusion matrix; it has a [roc_auc] entry exactly when the true
    labels have two distinct classes and a probability output was
    supplied.  For a two-dimensional output with at least two columns
    whose rows all have an element at index 1 the entry is
    [roc_auc_score] of the true labels and the list of those elements,
    the positive-class column; for a one-dimensional output it is the
    score of the output itself; it is null when the score raises, when
    the output has fewer than two columns or a row without index 1, and
    when the output has no shape. *)
Theorem roc_auc_is_optional_and_never_raises
    (ev : ModelEvaluator) (y_true y_pred : list Z) (y_proba : option proba)
    (acc prec rec f1 : Qc) (cm : list (list nat)) :
  accuracy_score y_true y_pred = Ret acc →
  precision_score y_true y_pred = Ret prec →
  recall_score y_true y_pred = Ret rec →
  f1_score y_true y_pred = Ret f1 →
  confusion_matrix y_true y_pred = Ret cm →
  ∃ m ev',
    calculate_metrics y_true y_pred y_proba ev = (Ret m, ev') ∧
    metrics ev' = m ∧
    m !! "accuracy" = Some (MFloat acc) ∧
    m !! "precision" = Some (MFloat prec) ∧
    m !! "recall" = Some (MFloat rec) ∧
    m !! "f1_score" = Some (MFloat f1) ∧
    m !! "confusion_matrix" = Some (MMatrix cm) ∧
    m !! "roc_auc" =
      match y_proba with
      | Some p =>
          if Nat.eqb (length (remove_dups y_true)) 2 then
            match obind (positive_scores p) (roc_auc_score y_true) with
            | Ret auc => Some (MFloat auc)
            | Raise _ => Some MNull
            end
          else None
      | None => None
      end ∧
    (length (remove_dups y_true) ≠ 2 ∨ y_proba = None → m !! "roc_auc" = None) ∧
    (length (remove_dups y_true) = 2 →
     (∀ ncols rows col,
        y_proba = Some (Matrix ncols rows) → 1 < ncols →
        Forall2 (λ r x, r !! 1 = Some x) rows col →
        m !! "roc_auc" = Some (match roc_auc_score y_true col with
                               | Ret auc => MFloat auc
                               | Raise _ => MNull
                               end)) ∧
     (∀ scores,
        y_proba = Some (Scores scores) →
        m !! "roc_auc" = Some (match roc_auc_score y_true scores with
                               | Ret auc => MFloat auc
                               | Raise _ => MNull
                               end)) ∧
     (∀ ncols rows,
        y_proba = Some (Matrix ncols rows) →
        ncols ≤ 1 ∨ Exists (λ r, r !! 1 = None) rows →
        m !! "roc_auc" = Some MNull) ∧
     (∀ rows, y_proba = Some (NoShape rows) → m !! "roc_auc" = Some MNull)).
Proof.
  intros Hacc Hprec Hrec Hf1 Hcm.
  destruct (calculate_metrics_returns ev y_true y_pred y_proba acc prec rec f1 cm
              Hacc Hprec Hrec Hf1 Hcm)
    as (m & ev' & Hrun & Hm & Ha & Hp & Hr & Hf & Hc & Hroc).
  exists m, ev'. repeat (split; [assumption |]). split.
  - intros [Hn | ->]; [| by rewrite Hroc].
    rewrite Hroc. destruct y_proba; [| done].
    by destruct (Nat.eqb_spec (length (remove_dups y_true)) 2).
  - intros Hn. rewrite Hn in Hroc. cbn [Nat.eqb] in Hroc.
    split; [| split; [| split]].
    + intros ncols rows col -> Hlt Hrows. rewrite Hroc.
      unfold positive_scores. cbn [ndim obind Nat.ltb Nat.leb].
      rewrite (column_1_rows _ _ _ Hlt Hrows). cbn [obind].
      by destruct (roc_auc_score y_true col).
    + intros scores ->. rewrite Hroc.
      unfold positive_scores. cbn [ndim obind Nat.ltb Nat.leb as_scores].
      by destruct (roc_auc_score y_true scores).
    + intros ncols rows -> Hbad. rewrite Hroc.
      unfold positive_scores. cbn [ndim obind Nat.ltb Nat.leb].
      by destruct (column_1_missing _ _ Hbad) as [e ->].
    + intros rows ->. by rewrite Hroc.
Qed.

End WithOps.

(** On the example of the specification with a two-column probability
    output, the entry is the score of column 1, here 5/6; column 0 would
    have given 1/6.  With a probability output that has no column 1 the
    score cannot be computed: the metrics are returned with a null
    [roc_auc]. *)
Lemma roc_auc_is_optional_and_never_raises_witness :
  (∃ m ev' auc auc0,
     calculate_metrics (ops := Sample.sample_metrics)
       Sample.y_true_example Sample.y_pred_example (Some Sample.two_columns)
       (init "artifacts") = (Ret m, ev') ∧
     m !! "accuracy" = Some (MFloat (Qc_of_Z 4 / Qc_of_Z 5)%Qc) ∧
     m !! "roc_auc" = Some (MFloat auc) ∧
     Qcanon.this auc = (5 # 6)%Q ∧
     roc_auc_score (MetricOps := Sample.sample_metrics) Sample.y_true_example
       [(Qc_of_Z 9 / Qc_of_Z 10)%Qc; (Qc_of_Z 1 / Qc_of_Z 5)%Qc;
        (Qc_of_Z 7 / Qc_of_Z 10)%Qc; (Qc_of_Z 3 / Qc_of_Z 5)%Qc;
        (Qc_of_Z 1 / Qc_of_Z 10)%Qc] = Ret auc0 ∧
     Qcanon.this auc0 = (1 # 6)%Q) ∧
  (∃ m ev',
     calculate_metrics (ops := Sample.sample_metrics)
       Sample.y_true_example Sample.y_pred_example (Some Sample.one_column)
       (init "artifacts") = (Ret m, ev') ∧
     m !! "accuracy" = Some (MFloat (Qc_of_Z 4 / Qc_of_Z 5)%Qc) ∧
     m !! "roc_auc" = Some MNull).
Proof.
  split.
  - destruct (roc_auc_is_optional_and_never_raises (ops := Sample.sample_metrics)
                (init "artifacts") Sample.y_true_example Sample.y_pred_example
                (Some Sample.two_columns)
                (Qc_of_Z 4 / Qc_of_Z 5)%Qc (Qc_of_Z 13 / Qc_of_Z 15)%Qc
                (Qc_of_Z 4 / Qc_of_Z 5)%Qc (Qc_of_Z 4 / Qc_of_Z 5)%Qc
                [[2; 0]; [1; 2]])
      as (m & ev' & Hrun & _ & Hacc & _ & _ & _ & _ & _ & _ & Hbin);
      [vm_compute; reflexivity .. |].
    destruct Hbin as (Hcol & _); [reflexivity |].
    specialize (Hcol 2 _
      [(Qc_of_Z 1 / Qc_of_Z 10)%Qc; (Qc_of_Z 4 / Qc_of_Z 5)%Qc;
       (Qc_of_Z 3 / Qc_of_Z 10)%Qc; (Qc_of_Z 2 / Qc_of_Z 5)%Qc;
       (Qc_of_Z 9 / Qc_of_Z 10)%Qc] eq_refl).
    destruct (roc_auc_score (MetricOps := Sample.sample_metrics) Sample.y_true_example
       [(Qc_of_Z 1 / Qc_of_Z 10)%Qc; (Qc_of_Z 4 / Qc_of_Z 5)%Qc;
        (Qc_of_Z 3 / Qc_of_Z 10)%Qc; (Qc_of_Z 2 / Qc_of_Z 5)%Qc;
        (Qc_of_Z 9 / Qc_of_Z 10)%Qc]) as [auc | e] eqn:E;
      vm_compute in E; [| discriminate].
    injection E as E.
    destruct (roc_auc_score (MetricOps := Sample.sample_metrics) Sample.y_true_example
       [(Qc_of_Z 9 / Qc_of_Z 10)%Qc; (Qc_of_Z 1 / Qc_of_Z 5)%Qc;
        (Qc_of_Z 7 / Qc_of_Z 10)%Qc; (Qc_of_Z 3 / Qc_of_Z 5)%Qc;
        (Qc_of_Z 1 / Qc_of_Z 10)%Qc]) as [auc0 | e] eqn:E0;
      vm_compute in E0; [| discriminate].
    injection E0 as E0.
    exists m, ev', auc, auc0.
    split; [exact Hrun |]. split; [exact Hacc |].
    split; [apply Hcol; [lia | repeat constructor] |].
    split; [by rewrite <- E |]. split; [reflexivity | by rewrite <- E0].
  - destruct (roc_auc_is_optional_and_never_raises (ops := Sample.sample_metrics)
                (init "artifacts") Sample.y_true_example Sample.y_pred_example
                (Some Sample.one_column)
                (Qc_of_Z 4 / Qc_of_Z 5)%Qc (Qc_of_Z 13 / Qc_of_Z 15)%Qc
                (Qc_of_Z 4 / Qc_of_Z 5)%Qc (Qc_of_Z 4 / Qc_of_Z 5)%Qc
                [[2; 0]; [1; 2]])
      as (m & ev' & Hrun & _ & Hacc & _ & _ & _ & _ & _ & _ & Hbin);
      [vm_compute; reflexivity .. |].
    destruct Hbin as (_ & _ & Hnull & _); [reflexivity |].
    exists m, ev'. split; [exact Hrun |]. split; [exact Hacc |].
    apply (Hnull 1 _ eq_refl). left. lia.
Defined.
End EvaluateProps.

Module RoutesProps.
Import Routes.

Section WithOps.
Context {ops : EstimatorOps}.

(** C1, the defect.  [predict_batch] reads the name [model_trainer],
    which the function does not bind and the module does not define: for
    every request and every set of loaded models the handler raises
    [NameError] before it looks at either, outside its [try], so the
    service answers 500 and never a prediction list, a 503 or a 400. *)
Theorem predict_batch_raises_name_error
    (request : BatchPredictionRequest) (loaded_models : registry) :
  predict_batch request loaded_models
    = (Raise (NameError "model_trainer"), loaded_models) ∧
  status_code (fst (predict_batch request loaded_models)) = 500%Z.
Proof. split; reflexivity. Qed.

End WithOps.

(** The failing input of C1: the default model is loaded and the batch
    holds two copies of one 54-element vector.  The handler as the
    specification words it returns two equal predictions and the count 2;
    the handler of the source raises. *)
Lemma predict_batch_differs_from_documented :
  fst (predict_batch_documented (ops := Sample.sample_estimators)
         Sample.batch_of_two Sample.registry_with_default)
    = Ret (mkBatchPredictionResponse [2; 2]%Z 2) ∧
  fst (predict_batch (ops := Sample.sample_estimators)
         Sample.batch_of_two Sample.registry_with_default)
    = Raise (NameError "model_trainer").
Proof. split; vm_compute; reflexivity. Qed.

End RoutesProps.

(* --------------------------------------------------------------------- *)
(** ** The repository's tests, run on the embedding                       *)
(* --------------------------------------------------------------------- *)

Module RepoTests.
Import Sample.

(** tests/test_data.py *)
Example test_validate_columns_pass :
  fst (Validation.validate_columns 0 ["a"; "b"] (Validation.fresh [df_abc])) = Ret true.
Proof. reflexivity. Qed.

Example test_validate_columns_fail :
  fst (Validation.validate_columns 0 ["a"; "b"; "missing"] (Validation.fresh [df_abc]))
    = Ret false.
Proof. reflexivity. Qed.

Example test_validate_missing_values :
  fst (Validation.validate_missing_values 0 (FNum (Qc_of_Z 1 / Qc_of_Z 2)%Qc)
         (Validation.fresh [Validation.df_sample])) = Ret true.
Proof. vm_compute. reflexivity. Qed.

Example test_handle_missing_values :
  ∃ out w' df,
    Preprocessing.handle_missing_values (ops := sample_ops) 0 "mean" "most_frequent"
      (preprocessor [df_num_cat]) = (Ret out, w') ∧
    heap w' !! out = Some df ∧
    map (λ nc, isnull_sum (snd nc)) (df_columns df) = [0; 0] ∧
    heap w' !! 0 = Some df_num_cat.
Proof. eexists _, _, _. vm_compute. repeat split. Qed.

Example test_encode_categorical :
  ∃ out w',
    Preprocessing.encode_categorical (ops := sample_ops) 0 None
      (preprocessor [df_cat]) = (Ret out, w') ∧
    heap w' !! out = Some (mkDataFrame 4 [("cat", IntCol [0; 1; 0; 2]%Z)]) ∧
    Preprocessing.label_encoders (self w') !! "cat"
      = Some (mkLabelEncoder [OStr "a"; OStr "b"; OStr "c"]).
Proof. eexists _, _. vm_compute. repeat split. Qed.

(** tests/test_models.py *)
Example test_get_model :
  ∃ m, Train.get_model (ops := sample_estimators) "random_forest" ∅ = Ret m.
Proof. eexists. vm_compute. reflexivity. Qed.

Example test_predict :
  ∃ ys, Train.predict (ops := sample_estimators) (self w_trained) X_sample = Ret ys ∧
        length ys = 3.
Proof. eexists. vm_compute. split; reflexivity. Qed.

(** The example of the specification: accuracy 0.8, precision and recall
    between 0 and 1. *)
Example test_calculate_metrics :
  ∃ m ev',
    Evaluate.calculate_metrics (ops := sample_metrics) y_true_example y_pred_example None
      (Evaluate.init "artifacts") = (Ret m, ev') ∧
    m !! "accuracy" = Some (Evaluate.MFloat (Qc_of_Z 4 / Qc_of_Z 5)%Qc) ∧
    m !! "precision" = Some (Evaluate.MFloat (Qc_of_Z 13 / Qc_of_Z 15)%Qc) ∧
    m !! "recall" = Some (Evaluate.MFloat (Qc_of_Z 4 / Qc_of_Z 5)%Qc) ∧
    m !! "roc_auc" = None.
Proof.
  destruct (EvaluateProps.calculate_metrics_returns (ops := sample_metrics)
              (Evaluate.init "artifacts") y_true_example y_pred_example None
              (Qc_of_Z 4 / Qc_of_Z 5)%Qc (Qc_of_Z 13 / Qc_of_Z 15)%Qc
              (Qc_of_Z 4 / Qc_of_Z 5)%Qc (Qc_of_Z 4 / Qc_of_Z 5)%Qc
              [[2; 0]; [1; 2]])
    as (m & ev' & Hrun & _ & Ha & Hp & Hr & _ & _ & Hroc);
    [vm_compute; reflexivity .. |].
  by exists m, ev'.
Qed.

End RepoTests.
